(** * Figma frame documentation generator: a shallow embedding

    The program is one Python module, [backend/generate-docs/index.py].
    Its pipeline is: URL parser, node fetcher, element extractor,
    description enricher, Markdown renderer, all driven by [handler].

    Conventions of the embedding.
    - A Python [str] is a [string]: the sequence of bytes of its UTF-8
      encoding.  Concatenation, searching for an ASCII pattern, and the
      character classes used by the program ([a-zA-Z0-9_], [0-9%-]) act
      the same on the encoding as on the code points: every byte of a
      non-ASCII character is at least 128 and lies outside those classes.
      Where the program replaces a character outside a class, the
      encoding gets one replacement per byte; the only such place is
      followed by the collapse of the replacements into one.
    - [str.lower] is given on the letters A-Z; [str.strip] removes the
      whitespace of [str.isspace], the non-ASCII part of it by its
      encodings.
    - A Python [int] is a [Z]; a JSON number that is read only through a
      comparison (cornerRadius) is a [Q].
    - A design node is a dict with the four keys the program reads, each
      optional, as the design API's schema types them; the answer of the
      design API is typed by that schema too.  The request body and the
      reply of the language model are arbitrary JSON values.
    - Code that can raise returns a [result]; the outside world (HTTP
      calls, the JSON reader, the process environment) enters through
      section variables.
    - In-place mutation of the element list is explicit state passing.
    - Recursion is structural: the interpreter's limit on the depth of
      calls is not part of the model. *)

From Stdlib Require Import String Ascii List ZArith QArith Bool Lia DecimalString.
Import ListNotations.

#[local] Set Warnings "-register-all".
#[local] Open Scope string_scope.
#[local] Open Scope Z_scope.

(** ** Characters and strings *)

Module Str.

Definition in_range (lo hi : nat) (c : ascii) : bool :=
  let n := nat_of_ascii c in (Nat.leb lo n && Nat.leb n hi)%bool.

Definition is_upper : ascii -> bool := in_range 65 90.
Definition is_lower : ascii -> bool := in_range 97 122.
Definition is_digit : ascii -> bool := in_range 48 57.

(** The class [[a-zA-Z0-9]]. *)
Definition is_alnum (c : ascii) : bool := is_lower c || is_upper c || is_digit c.

(** The class [[a-zA-Z0-9_]]. *)
Definition is_word (c : ascii) : bool := is_alnum c || Ascii.eqb c "_".

(** The class [[0-9%-]]. *)
Definition is_node_id_char (c : ascii) : bool :=
  is_digit c || Ascii.eqb c "%" || Ascii.eqb c "-".

Fixpoint map (f : ascii -> ascii) (s : string) : string :=
  match s with
  | EmptyString => EmptyString
  | String c s' => String (f c) (map f s')
  end.

Fixpoint forallb (p : ascii -> bool) (s : string) : bool :=
  match s with
  | EmptyString => true
  | String c s' => p c && forallb p s'
  end.

Definition is_empty (s : string) : bool :=
  match s with EmptyString => true | String _ _ => false end.

(** [str.lower()] on the letters A-Z.  Python also lowers non-ASCII
    cased letters; their images are non-ASCII again, except for U+0130
    and U+212A whose images contain [i] and [k]. *)
Definition lower_char (c : ascii) : ascii :=
  if is_upper c then ascii_of_nat (nat_of_ascii c + 32) else c.

Definition lower : string -> string := map lower_char.

(** [s.startswith(p)] *)
Fixpoint starts_with (p s : string) : bool :=
  match p, s with
  | EmptyString, _ => true
  | String a p', String b s' => Ascii.eqb a b && starts_with p' s'
  | String _ _, EmptyString => false
  end.

(** [p in s] *)
Fixpoint contains (p s : string) : bool :=
  starts_with p s ||
  match s with
  | EmptyString => false
  | String _ s' => contains p s'
  end.

(** [s.replace(a, b)] for one-character [a] and [b]. *)
Definition replace (a b : ascii) : string -> string :=
  map (fun c => if Ascii.eqb c a then b else c).

(** The longest prefix of [s] inside the class [p], and the rest:
    what a greedy [[p]*] consumes. *)
Fixpoint span (p : ascii -> bool) (s : string) : string * string :=
  match s with
  | EmptyString => (EmptyString, EmptyString)
  | String c s' =>
      if p c then let (run, rest) := span p s' in (String c run, rest)
      else (EmptyString, s)
  end.

(** [s.lstrip(c)], [s.rstrip(c)], [s.strip(c)] for one character. *)
Fixpoint lstrip (c : ascii) (s : string) : string :=
  match s with
  | EmptyString => EmptyString
  | String a s' => if Ascii.eqb a c then lstrip c s' else s
  end.

Fixpoint rstrip (c : ascii) (s : string) : string :=
  match s with
  | EmptyString => EmptyString
  | String a s' =>
      let r := rstrip c s' in
      if Ascii.eqb a c && is_empty r then EmptyString else String a r
  end.

Definition strip (c : ascii) (s : string) : string := rstrip c (lstrip c s).

(** [s.strip()] removes the characters of [str.isspace] at both ends.
    They are the ASCII characters 9-13 and 28-32 and the code points
    U+0085, U+00A0, U+1680, U+2000-U+200A, U+2028, U+2029, U+202F,
    U+205F and U+3000, here by their UTF-8 encodings of two and three
    bytes. *)
Definition is_space (c : ascii) : bool :=
  in_range 9 13 c || in_range 28 32 c.

Definition is_byte (n : nat) (c : ascii) : bool := Nat.eqb (nat_of_ascii c) n.

(** U+0085 is C2 85, U+00A0 is C2 A0. *)
Definition is_space2 (a b : ascii) : bool :=
  is_byte 194 a && (is_byte 133 b || is_byte 160 b).

(** U+1680 is E1 9A 80; U+2000-U+200A are E2 80 80 to E2 80 8A; U+2028,
    U+2029 and U+202F are E2 80 A8, E2 80 A9 and E2 80 AF; U+205F is
    E2 81 9F; U+3000 is E3 80 80. *)
Definition is_space3 (a b c : ascii) : bool :=
  (is_byte 225 a && is_byte 154 b && is_byte 128 c)
  || (is_byte 226 a && is_byte 128 b
      && (in_range 128 138 c || is_byte 168 c || is_byte 169 c || is_byte 175 c))
  || (is_byte 226 a && is_byte 129 b && is_byte 159 c)
  || (is_byte 227 a && is_byte 128 b && is_byte 128 c).

Fixpoint lstrip_ws (s : string) : string :=
  match s with
  | EmptyString => EmptyString
  | String a s1 =>
      if is_space a then lstrip_ws s1
      else
        match s1 with
        | EmptyString => s
        | String b s2 =>
            if is_space2 a b then lstrip_ws s2
            else
              match s2 with
              | EmptyString => s
              | String c s3 => if is_space3 a b c then lstrip_ws s3 else s
              end
        end
  end.

(** Nothing but whitespace. *)
Definition all_space (s : string) : bool := is_empty (lstrip_ws s).

(** The text up to the place from which only whitespace follows. *)
Fixpoint rstrip_ws (s : string) : string :=
  match s with
  | EmptyString => EmptyString
  | String a s' => if all_space s then EmptyString else String a (rstrip_ws s')
  end.

Definition strip_ws (s : string) : string := rstrip_ws (lstrip_ws s).

(** [s] without the prefix [p], when it has it. *)
Fixpoint drop_prefix (p s : string) : option string :=
  match p, s with
  | EmptyString, _ => Some s
  | String a p', String b s' => if Ascii.eqb a b then drop_prefix p' s' else None
  | String _ _, EmptyString => None
  end.

Definition newline : string := String (ascii_of_nat 10) EmptyString.
Definition dquote : string := String (ascii_of_nat 34) EmptyString.

(** [str(n)] for an [int]. *)
Definition of_Z (n : Z) : string := NilZero.string_of_int (Z.to_int n).

(** [sep.join(l)] *)
Fixpoint join (sep : string) (l : list string) : string :=
  match l with
  | [] => ""
  | [s] => s
  | s :: l' => s ++ sep ++ join sep l'
  end.

End Str.

(** ** Name sanitization ([sanitize_name]) *)

(** [re.sub(r'[^a-zA-Z0-9_]', '_', name)]: every character outside the
    class is a match of its own. *)
Definition re_sub_nonword (name : string) : string :=
  Str.map (fun c => if Str.is_word c then c else "_"%char) name.

(** [re.sub(r'_+', '_', s)]: the scan copies characters until it meets an
    underscore, consumes the whole run (the [+] is greedy) and writes one
    underscore for it.  [in_run] records that the run's underscore has
    been written. *)
Fixpoint re_sub_runs (in_run : bool) (s : string) : string :=
  match s with
  | EmptyString => EmptyString
  | String c s' =>
      if Ascii.eqb c "_" then
        if in_run then re_sub_runs true s' else String "_" (re_sub_runs true s')
      else String c (re_sub_runs false s')
  end.

Definition re_sub_underscores : string -> string := re_sub_runs false.

Definition sanitize_name (name : string) : string :=
  let sanitized := re_sub_nonword name in
  let sanitized := Str.lower (Str.strip "_" (re_sub_underscores sanitized)) in
  if Str.is_empty sanitized then "element" else sanitized.

(** A string is [settled b] when [re_sub_runs b] has nothing to do on it:
    no two adjacent underscores, and no leading one if [b] holds. *)
Fixpoint settled (b : bool) (s : string) : bool :=
  match s with
  | EmptyString => true
  | String c s' =>
      if Ascii.eqb c "_" then negb b && settled true s' else settled false s'
  end.


(** The steps as the specification words them. *)
Module SanitizeSpec.





End SanitizeSpec.

(** ** Python values and exceptions *)

(** What [json.loads] can return.  A float is the rational it denotes;
    a [dict] is its list of items in insertion order, read by first
    match. *)
Inductive pyval : Type :=
| PNone
| PBool (b : bool)
| PInt (n : Z)
| PFloat (q : Q)
| PStr (s : string)
| PList (items : list pyval)
| PDict (items : list (string * pyval)).

(** The exceptions the program can meet.  [HTTPError] is the only one the
    program names in an [except] clause; it is a subclass of [URLError]
    in Python, which plays no role here because no clause names
    [URLError]. *)
Inductive exn : Type :=
| HTTPError (code : Z)
| URLError
| JSONDecodeError
| TypeError
| KeyError
| IndexError
| AttributeError.

Inductive result (A : Type) : Type :=
| Ok (a : A)
| Raise (e : exn).
Arguments Ok {A} a.
Arguments Raise {A} e.

Definition bind {A B : Type} (r : result A) (k : A -> result B) : result B :=
  match r with
  | Ok a => k a
  | Raise e => Raise e
  end.

Notation "x <- r ;; k" := (bind r (fun x => k))
  (at level 61, r at next level, right associativity).

Definition from_option {A : Type} (default : A) (o : option A) : A :=
  match o with Some a => a | None => default end.

Module Py.

(** [d.get(key)] on the items of a dict. *)
Fixpoint lookup {A : Type} (key : string) (d : list (string * A)) : option A :=
  match d with
  | [] => None
  | (k, v) :: d' => if String.eqb k key then Some v else lookup key d'
  end.

(** [v.get(key, default)]: an [AttributeError] unless [v] is a dict. *)
Definition get (v : pyval) (key : string) (default : pyval) : result pyval :=
  match v with
  | PDict d => Ok (from_option default (lookup key d))
  | _ => Raise AttributeError
  end.

(** [v[key]] for a string [key]: a [KeyError] on a dict without the
    key, a [TypeError] on everything that is not a dict. *)
Definition getitem (v : pyval) (key : string) : result pyval :=
  match v with
  | PDict d =>
      match lookup key d with
      | Some x => Ok x
      | None => Raise KeyError
      end
  | _ => Raise TypeError
  end.

(** [v[0]]: the first item of a list or the first character of a string
    (an [IndexError] when there is none), a [KeyError] on a dict, whose
    keys are strings. *)
Definition first (v : pyval) : result pyval :=
  match v with
  | PList (x :: _) => Ok x
  | PList [] => Raise IndexError
  | PStr (String c _) => Ok (PStr (String c EmptyString))
  | PStr EmptyString => Raise IndexError
  | PDict _ => Raise KeyError
  | _ => Raise TypeError
  end.

(** [iter(v)]: the items of a list, the keys of a dict, the characters
    of a string; other values are not iterable. *)
Fixpoint chars (s : string) : list pyval :=
  match s with
  | EmptyString => []
  | String c s' => PStr (String c EmptyString) :: chars s'
  end.

Definition iter (v : pyval) : result (list pyval) :=
  match v with
  | PList l => Ok l
  | PDict d => Ok (List.map (fun kv => PStr (fst kv)) d)
  | PStr s => Ok (chars s)
  | _ => Raise TypeError
  end.

(** Numbers compare by value across [bool], [int] and [float]. *)
Definition number (v : pyval) : option Q :=
  match v with
  | PBool b => Some (if b then 1%Q else 0%Q)
  | PInt n => Some (inject_Z n)
  | PFloat q => Some q
  | _ => None
  end.

(** [a == b] on values that can be dict keys. *)
Definition eqb (a b : pyval) : bool :=
  match number a, number b with
  | Some x, Some y => Qeq_bool x y
  | None, None =>
      match a, b with
      | PNone, PNone => true
      | PStr s, PStr t => String.eqb s t
      | _, _ => false
      end
  | _, _ => false
  end.

(** [hash(v)] raises a [TypeError] on lists and dicts. *)
Definition hashable (v : pyval) : bool :=
  match v with
  | PList _ | PDict _ => false
  | _ => true
  end.

(** A dict with arbitrary hashable keys, as built by a comprehension:
    [m[key] = value] keeps the position of a key already present. *)
Fixpoint setitem (m : list (pyval * pyval)) (key value : pyval) : list (pyval * pyval) :=
  match m with
  | [] => [(key, value)]
  | (k, v) :: m' =>
      if eqb k key then (k, value) :: m' else (k, v) :: setitem m' key value
  end.

Fixpoint getkey (m : list (pyval * pyval)) (key : pyval) : option pyval :=
  match m with
  | [] => None
  | (k, v) :: m' => if eqb k key then Some v else getkey m' key
  end.

End Py.

(** ** Design nodes and the element extractor *)

(** A node of the design tree: the dict of one Figma node.  The program
    reads four keys, each of which may be missing; [other_keys] names
    the remaining ones (id, fills, ...), which it never reads. *)
Inductive node : Type :=
  Node (type : option string)
       (name : option string)
       (cornerRadius : option Q)
       (children : option (list node))
       (other_keys : list string).

Definition node_type (n : node) : option string :=
  match n with Node t _ _ _ _ => t end.
Definition node_name (n : node) : option string :=
  match n with Node _ nm _ _ _ => nm end.
Definition node_cornerRadius (n : node) : option Q :=
  match n with Node _ _ r _ _ => r end.

(** [{}], and [not node] for a dict. *)
Definition empty_node : node := Node None None None None [].

Definition node_is_empty (n : node) : bool :=
  match n with
  | Node None None None None [] => true
  | _ => false
  end.

(** One entry of the element list.  [description] and [logic] are absent
    until the enricher sets them, possibly to a value taken as it is
    from the model's reply. *)
Record element : Type := {
  el_id : Z;
  el_type : string;
  el_name : string;
  el_raw_name : string;
  el_figma_type : string;
  el_description : option pyval;
  el_logic : option pyval
}.

(** [x in [a, b, ...]] for strings. *)
Definition str_in (x : string) (l : list string) : bool :=
  existsb (String.eqb x) l.

Definition Qpositive (q : Q) : bool := negb (Qle_bool q 0).

Definition is_button_like (n : node) : bool :=
  let name := Str.lower (from_option "" (node_name n)) in
  let has_rounded_corners := Qpositive (from_option 0%Q (node_cornerRadius n)) in
  Str.contains "button" name || Str.contains "btn" name || has_rounded_corners.

(** [elements] and [counter] are the list and the one-cell counter that
    the recursive calls share and mutate; the function returns both as
    they are after the call. *)
Fixpoint extract_ui_elements (n : node) (elements : list element) (counter : Z)
  {struct n} : list element * Z :=
  match n with
  | Node type name _ children _ =>
      let node_type := from_option "" type in
      let node_name := from_option "Unnamed" name in
      let visit_children :=
        match children with
        | Some children =>
            fold_left (fun st child => extract_ui_elements child (fst st) (snd st))
                      children (elements, counter)
        | None => (elements, counter)
        end in
      let append kind :=
        ((elements ++ [ {| el_id := counter;
                          el_type := kind;
                          el_name := sanitize_name node_name;
                          el_raw_name := node_name;
                          el_figma_type := node_type;
                          el_description := None;
                          el_logic := None |} ])%list,
         counter + 1) in
      if str_in node_type ["FRAME"; "GROUP"; "COMPONENT"; "INSTANCE"] then
        visit_children
      else if String.eqb node_type "TEXT" then
        append "text"
      else if String.eqb node_type "RECTANGLE" then
        if is_button_like n then append "button" else append "card"
      else if str_in node_type ["VECTOR"; "BOOLEAN_OPERATION"; "STAR"; "LINE"; "ELLIPSE"] then
        append "icon"
      else
        visit_children
  end.

(** The call [extract_ui_elements(node)] with both defaults: a fresh list
    and a counter starting at 1. *)
Definition extract_ui_elements_default (n : node) : list element :=
  fst (extract_ui_elements n [] 1).

(** The traversal as the specification describes it. *)
Module ExtractSpec.

(** How a node is classified, if it is emitted at all. *)
Definition classify (n : node) : option string :=
  let t := from_option "" (node_type n) in
  if String.eqb t "TEXT" then Some "text"
  else if String.eqb t "RECTANGLE" then
    Some (if is_button_like n then "button" else "card")
  else if str_in t ["VECTOR"; "BOOLEAN_OPERATION"; "STAR"; "LINE"; "ELLIPSE"] then
    Some "icon"
  else None.

(** The nodes in depth-first order, a node before its children and the
    children from left to right. *)
Fixpoint preorder (n : node) : list node :=
  match n with
  | Node _ _ _ children _ =>
      n :: match children with
           | Some children => flat_map preorder children
           | None => []
           end
  end.

(** The emitted nodes in the order of discovery: an emitted node is a
    leaf of the walk, any other node stands for its children's. *)
Fixpoint discovered (n : node) : list node :=
  match n with
  | Node _ _ _ children _ =>
      match classify n with
      | Some _ => [n]
      | None =>
          match children with
          | Some children => flat_map discovered children
          | None => []
          end
      end
  end.

(** The element of an emitted node that is given the id [k]. *)
Definition element_of (k : Z) (n : node) : element :=
  let raw := from_option "Unnamed" (node_name n) in
  {| el_id := k;
     el_type := from_option "" (classify n);
     el_name := sanitize_name raw;
     el_raw_name := raw;
     el_figma_type := from_option "" (node_type n);
     el_description := None;
     el_logic := None |}.

(** Ids [k], [k+1], ... handed out along a list. *)
Fixpoint numbered (k : Z) (l : list node) : list element :=
  match l with
  | [] => []
  | n :: l' => element_of k n :: numbered (k + 1) l'
  end.

(** [l] is [m] with some entries left out. *)
Inductive subsequence {A : Type} : list A -> list A -> Prop :=
| sub_nil : subsequence [] []
| sub_skip x l m : subsequence l m -> subsequence l (x :: m)
| sub_keep x l m : subsequence l m -> subsequence (x :: l) (x :: m).

(** The name test of the button heuristic, without lowering the name
    first: some window of the name equals the pattern up to the case of
    its letters. *)
Definition same_letter (a b : ascii) : bool :=
  Ascii.eqb (Str.lower_char a) (Str.lower_char b).

Fixpoint starts_with_nocase (p s : string) : bool :=
  match p, s with
  | EmptyString, _ => true
  | String a p', String b s' => same_letter a b && starts_with_nocase p' s'
  | String _ _, EmptyString => false
  end.

Fixpoint contains_nocase (p s : string) : bool :=
  starts_with_nocase p s ||
  match s with
  | EmptyString => false
  | String _ s' => contains_nocase p s'
  end.

End ExtractSpec.

(** ** The URL parser ([parse_figma_url]) *)

(** A literal followed by [([class]+)], tried at the start of [s]: the
    group is the longest run of class characters after the literal, and
    the match fails when the run is empty. *)
Definition match_at (literal : string) (class : ascii -> bool) (s : string)
  : option string :=
  match Str.drop_prefix literal s with
  | Some rest =>
      let run := fst (Str.span class rest) in
      if Str.is_empty run then None else Some run
  | None => None
  end.

(** An alternation of literals before the group: the alternatives are
    tried in order. *)
Fixpoint match_any (literals : list string) (class : ascii -> bool) (s : string)
  : option string :=
  match literals with
  | [] => None
  | literal :: rest =>
      match match_at literal class s with
      | Some group => Some group
      | None => match_any rest class s
      end
  end.

(** [re.search]: the pattern is tried at every offset from the left, and
    the first success is the match; the result is its group 1. *)
Fixpoint re_search (match_here : string -> option string) (s : string)
  : option string :=
  match match_here s with
  | Some group => Some group
  | None =>
      match s with
      | EmptyString => None
      | String _ s' => re_search match_here s'
      end
  end.

Definition file_key_literals : list string := ["figma.com/file/"; "figma.com/design/"].
Definition node_id_literals : list string := ["node-id="].

Definition parse_figma_url (url : string) : option string * option string :=
  let file_match := re_search (match_any file_key_literals Str.is_alnum) url in
  let node_match := re_search (match_any node_id_literals Str.is_node_id_char) url in
  let file_key := file_match in
  let node_id := option_map (Str.replace "-" ":") node_match in
  (file_key, node_id).

(** What the specification says a match is. *)
Module UrlSpec.

(** [s] starts with one of the literals, then the segment [k] made of at
    least one class character and followed by no further one. *)
Definition segment_at (literals : list string) (class : ascii -> bool)
           (s k : string) : Prop :=
  exists literal rest,
    In literal literals /\ s = literal ++ k ++ rest /\ k <> "" /\
    Str.forallb class k = true /\
    match rest with
    | String c _ => class c = false
    | EmptyString => True
    end.

(** No literal followed by a class character starts [s]. *)
Definition nothing_at (literals : list string) (class : ascii -> bool)
           (s : string) : Prop :=
  forall literal c rest,
    In literal literals -> s = literal ++ String c rest -> class c = false.

(** [k] is the segment of the leftmost place of [url] that has one. *)
Definition first_segment (literals : list string) (class : ascii -> bool)
           (url k : string) : Prop :=
  exists before s,
    url = before ++ s /\ segment_at literals class s k /\
    forall before' s',
      url = before' ++ s' ->
      (String.length before' < String.length before)%nat ->
      nothing_at literals class s'.

Definition no_segment (literals : list string) (class : ascii -> bool)
           (url : string) : Prop :=
  forall before s, url = before ++ s -> nothing_at literals class s.

(** The query parameters of a URL: the text between the first "?" and
    the first "#", cut at every "&"; a parameter is a name and, after
    its first "=", a value. *)
Fixpoint before_char (c : ascii) (s : string) : string :=
  match s with
  | EmptyString => EmptyString
  | String a s' => if Ascii.eqb a c then EmptyString else String a (before_char c s')
  end.

Fixpoint after_char (c : ascii) (s : string) : string :=
  match s with
  | EmptyString => EmptyString
  | String a s' => if Ascii.eqb a c then s' else after_char c s'
  end.

Fixpoint split_on (c : ascii) (s : string) : list string :=
  match s with
  | EmptyString => [EmptyString]
  | String a s' =>
      match split_on c s' with
      | piece :: pieces =>
          if Ascii.eqb a c then EmptyString :: piece :: pieces
          else String a piece :: pieces
      | [] => [String a EmptyString]
      end
  end.

Definition query_parameters (url : string) : list (string * string) :=
  List.map (fun p => (before_char "=" p, after_char "=" p))
           (split_on "&" (after_char "?" (before_char "#" url))).

(** The value of the first parameter of that name, if the URL has one. *)
Definition query_parameter (name url : string) : option string :=
  Py.lookup name (query_parameters url).

End UrlSpec.

(** ** The node fetcher ([fetch_figma_node]) *)

(** The decoded body of the design API's answer to a node lookup, by its
    schema: an optional [nodes] object that maps node ids to entries; an
    entry is [null] or an object with an optional [document], which is a
    design node. *)
Record figma_entry : Type := {
  entry_document : option node
}.

Record figma_response : Type := {
  resp_nodes : option (list (string * option figma_entry))
}.

Section Fetcher.

(** [urlopen(req)] with [req] the GET of a URL under a token, followed
    by [json.loads(response.read().decode())]: the decoded answer, or
    the exception raised on the way. *)
Variable figma_get : string -> string -> result figma_response.

Definition fetch_figma_node (file_key node_id token : string) : result node :=
  let url := "https://api.figma.com/v1/files/" ++ file_key ++ "/nodes?ids=" ++ node_id in
  match figma_get url token with
  | Ok data =>
      let nodes := from_option [] (resp_nodes data) in
      match from_option (Some {| entry_document := None |}) (Py.lookup node_id nodes) with
      | Some entry =>
          let node_data := from_option empty_node (entry_document entry) in
          Ok node_data
      | None => Raise AttributeError
      end
  | Raise (HTTPError _) => Ok empty_node
  | Raise e => Raise e
  end.

End Fetcher.

(** ** The description enricher ([enhance_with_deepseek]) *)

(** [re.search(r'\[[\s\S]*\]', content)]: from the first opening bracket
    that has a closing bracket after it, through the last closing
    bracket of the text. *)
Fixpoint through_last_bracket (s : string) : option string :=
  match s with
  | EmptyString => None
  | String c s' =>
      match through_last_bracket s' with
      | Some m => Some (String c m)
      | None => if Ascii.eqb c "]" then Some (String c EmptyString) else None
      end
  end.

Fixpoint search_array (s : string) : option string :=
  match s with
  | EmptyString => None
  | String c s' =>
      if Ascii.eqb c "[" then
        match through_last_bracket s' with
        | Some m => Some (String c m)
        | None => None
        end
      else search_array s'
  end.

Definition fallback_description (e : element) : string :=
  "Элемент " ++ el_type e ++ ": " ++ el_raw_name e.

Definition fallback_logic : string := "Базовое взаимодействие с элементом".

Definition default_description (e : element) : string :=
  "Элемент " ++ el_type e.

Definition default_logic : string := "Стандартное взаимодействие".

Definition set_description (e : element) (v : pyval) : element :=
  {| el_id := el_id e; el_type := el_type e; el_name := el_name e;
     el_raw_name := el_raw_name e; el_figma_type := el_figma_type e;
     el_description := Some v; el_logic := el_logic e |}.

Definition set_logic (e : element) (v : pyval) : element :=
  {| el_id := el_id e; el_type := el_type e; el_name := el_name e;
     el_raw_name := el_raw_name e; el_figma_type := el_figma_type e;
     el_description := el_description e; el_logic := Some v |}.

(** The body of the [except] clause for one element. *)
Definition with_fallback (e : element) : element :=
  set_logic (set_description e (PStr (fallback_description e))) (PStr fallback_logic).

(** [{item['id']: item for item in ai_data}], the items taken in order. *)
Fixpoint ai_map_of_items (items : list pyval) (m : list (pyval * pyval))
  : result (list (pyval * pyval)) :=
  match items with
  | [] => Ok m
  | item :: items' =>
      key <- Py.getitem item "id" ;;
      if Py.hashable key then ai_map_of_items items' (Py.setitem m key item)
      else Raise TypeError
  end.

Definition ai_map_of (ai_data : pyval) : result (list (pyval * pyval)) :=
  items <- Py.iter ai_data ;;
  ai_map_of_items items [].

(** The two assignments of the loop body.  The element comes back as the
    loop left it, with the exception if one was raised. *)
Definition enrich_element (ai_map : list (pyval * pyval)) (e : element)
  : element * option exn :=
  let ai_info := from_option (PDict []) (Py.getkey ai_map (PInt (el_id e))) in
  match Py.get ai_info "description" (PStr (default_description e)) with
  | Raise x => (e, Some x)
  | Ok d =>
      let e := set_description e d in
      match Py.get ai_info "logic" (PStr default_logic) with
      | Raise x => (e, Some x)
      | Ok l => (set_logic e l, None)
      end
  end.

(** [for element in elements: ...] on the shared list. *)
Fixpoint enrich_loop (ai_map : list (pyval * pyval)) (elements : list element)
  : list element * option exn :=
  match elements with
  | [] => ([], None)
  | e :: rest =>
      match enrich_element ai_map e with
      | (e', Some x) => (e' :: rest, Some x)
      | (e', None) =>
          let (rest', raised) := enrich_loop ai_map rest in
          (e' :: rest', raised)
      end
  end.

Definition prompt_of (frame_name element_summary : string) : string :=
  "Analyze this UI screen called " ++ Str.dquote ++ frame_name ++ Str.dquote
  ++ " with the following elements:

" ++ element_summary ++ "

For each element, provide:
1. A brief Russian description (what it is)
2. Its business logic (what happens when user interacts with it)

Return ONLY a JSON array with this exact structure:
[
  {" ++ Str.dquote ++ "id" ++ Str.dquote ++ ": 1, "
  ++ Str.dquote ++ "description" ++ Str.dquote ++ ": "
  ++ Str.dquote ++ "Описание элемента" ++ Str.dquote ++ ", "
  ++ Str.dquote ++ "logic" ++ Str.dquote ++ ": "
  ++ Str.dquote ++ "Логика работы" ++ Str.dquote ++ "},
  ...
]

Rules:
- Keep descriptions concise (max 50 chars)
- Keep logic concise (max 80 chars)
- Use Russian language
- Return valid JSON only, no markdown, no extra text".

(** One line per element: id, classified type, raw name. *)
Definition element_summary (elements : list element) : string :=
  Str.join Str.newline
    (map (fun e => Str.of_Z (el_id e) ++ ". " ++ el_type e ++ ": " ++ el_raw_name e)
         elements).

(** The structure the prompt asks for: an array of objects that each
    hold an integer [id] and two texts. *)
Definition well_formed_item (item : pyval) : bool :=
  match item with
  | PDict d =>
      match Py.lookup "id" d, Py.lookup "description" d, Py.lookup "logic" d with
      | Some (PInt _), Some (PStr _), Some (PStr _) => true
      | _, _, _ => false
      end
  | _ => false
  end.

Definition well_formed_reply (ai_data : pyval) : bool :=
  match ai_data with
  | PList items => forallb well_formed_item items
  | _ => false
  end.

Definition is_dict (v : pyval) : bool :=
  match v with PDict _ => true | _ => false end.

Section Enricher.

(** The POST to the completion API followed by
    [json.loads(response.read().decode())], for a prompt and a key. *)
Variable deepseek_post : string -> string -> result pyval.

(** [json.loads] on a text. *)
Variable json_loads : string -> result pyval.

Definition call_deepseek_api (prompt api_key : string) : result string :=
  data <- deepseek_post prompt api_key ;;
  choices <- Py.getitem data "choices" ;;
  choice <- Py.first choices ;;
  message <- Py.getitem choice "message" ;;
  content <- Py.getitem message "content" ;;
  match content with
  | PStr content =>
      match search_array content with
      | Some json_match => Ok json_match
      | None => Ok content
      end
  | _ => Raise TypeError
  end.

(** The [try] block: the list as the block left it, and the exception
    that ended it, if any. *)
Definition enhance_try (elements : list element) (prompt api_key : string)
  : list element * option exn :=
  match (ai_response <- call_deepseek_api prompt api_key ;;
         ai_data <- json_loads ai_response ;;
         ai_map_of ai_data) with
  | Raise x => (elements, Some x)
  | Ok ai_map => enrich_loop ai_map elements
  end.

Definition enhance_with_deepseek (elements : list element)
           (frame_name api_key : string) : list element :=
  match elements with
  | [] => elements
  | _ :: _ =>
      let prompt := prompt_of frame_name (element_summary elements) in
      match enhance_try elements prompt api_key with
      | (elements, None) => elements
      | (elements, Some _) => map with_fallback elements
      end
  end.

End Enricher.

(** ** The Markdown renderer ([generate_markdown]) *)

Section Renderer.

(** [str(v)] for a value that is not a string, as an f-string writes
    it. *)
Variable repr : pyval -> string.

Definition format_value (v : pyval) : string :=
  match v with
  | PStr s => s
  | _ => repr v
  end.

Definition generate_markdown (elements : list element) (frame_name : string) : string :=
  let md := "# " ++ frame_name ++ " Documentation" ++ Str.newline ++ Str.newline in
  let md := md ++ "| № | Тип элемента | Название | Описание | Логика работы |" ++ Str.newline in
  let md := md ++ "|---|--------------|----------|-----------|---------------|" ++ Str.newline in
  fold_left
    (fun md element =>
       let md := md ++ "| " ++ Str.of_Z (el_id element) ++ " | " ++ el_type element
                    ++ " | " ++ el_name element ++ " | " in
       md ++ format_value (from_option (PStr "") (el_description element)) ++ " | "
          ++ format_value (from_option (PStr "") (el_logic element)) ++ " |" ++ Str.newline)
    elements md.

End Renderer.

(** The document as the specification describes it. *)
Module MarkdownSpec.

Definition heading (frame_name : string) : string :=
  "# " ++ frame_name ++ " Documentation" ++ Str.newline ++ Str.newline.

Definition table_header : string :=
  "| № | Тип элемента | Название | Описание | Логика работы |" ++ Str.newline
  ++ "|---|--------------|----------|-----------|---------------|" ++ Str.newline.

(** A cell of an optional field: empty when the field is missing. *)
Definition cell (repr : pyval -> string) (field : option pyval) : string :=
  match field with
  | Some (PStr s) => s
  | Some v => repr v
  | None => ""
  end.

Definition row (repr : pyval -> string) (e : element) : string :=
  "| " ++ Str.of_Z (el_id e) ++ " | " ++ el_type e ++ " | " ++ el_name e ++ " | "
  ++ cell repr (el_description e) ++ " | " ++ cell repr (el_logic e) ++ " |"
  ++ Str.newline.

Fixpoint rows (repr : pyval -> string) (elements : list element) : string :=
  match elements with
  | [] => ""
  | e :: rest => row repr e ++ rows repr rest
  end.

End MarkdownSpec.

(** ** The request handler ([handler]) *)

(** The event: [httpMethod] may be missing; [body] may be missing, null
    or a text. *)
Record event : Type := {
  ev_httpMethod : option string;
  ev_body : option (option string)
}.

(** The dict given to [json.dumps] for the response body, or the empty
    body of the preflight answer. *)
Inductive response_body : Type :=
| EmptyBody
| ErrorBody (error : string)
| DocumentBody (markdown frameName : string) (elementsCount : Z).

Record response : Type := {
  statusCode : Z;
  headers : list (string * string);
  body : response_body;
  isBase64Encoded : option bool
}.

Definition json_headers : list (string * string) :=
  [("Access-Control-Allow-Origin", "*"); ("Content-Type", "application/json")].

Definition error_response (status : Z) (message : string) : response :=
  {| statusCode := status;
     headers := json_headers;
     body := ErrorBody message;
     isBase64Encoded := Some false |}.

(** [not s] for a value that is [None] or a string. *)
Definition is_blank (s : option string) : bool :=
  match s with
  | None => true
  | Some s => Str.is_empty s
  end.

(** [event.get('body', '{}')] as [json.loads] takes it: a text, or a
    [TypeError] for [None]. *)
Definition body_text (ev : event) : result string :=
  match ev_body ev with
  | None => Ok "{}"
  | Some (Some text) => Ok text
  | Some None => Raise TypeError
  end.

Section Handler.

Variable figma_get : string -> string -> result figma_response.
Variable deepseek_post : string -> string -> result pyval.
Variable json_loads : string -> result pyval.

(** [os.environ.get] *)
Variable environ : string -> option string.

(** [str(v)] for a value that is not a string, and [str(e)] for an
    exception. *)
Variable repr : pyval -> string.
Variable exn_message : exn -> string.

(** The body of the [try] block of [handler]. *)
Definition handler_try (ev : event) : result response :=
  raw <- body_text ev ;;
  body_data <- json_loads raw ;;
  url_value <- Py.get body_data "figmaUrl" (PStr "") ;;
  figma_url <- match url_value with
               | PStr s => Ok (Str.strip_ws s)
               | _ => Raise AttributeError
               end ;;
  if Str.is_empty figma_url then
    Ok (error_response 400 "Figma URL is required")
  else
    let (file_key, node_id) := parse_figma_url figma_url in
    if is_blank file_key || is_blank node_id then
      Ok (error_response 400
            "Invalid Figma URL format. Expected: figma.com/file/FILE_KEY/...?node-id=NODE_ID")
    else
      let figma_token := environ "FIGMA_ACCESS_TOKEN" in
      let deepseek_key := environ "DEEPSEEK_API_KEY" in
      if is_blank figma_token then
        Ok (error_response 500 "FIGMA_ACCESS_TOKEN not configured")
      else if is_blank deepseek_key then
        Ok (error_response 500 "DEEPSEEK_API_KEY not configured")
      else
        figma_data <- fetch_figma_node figma_get (from_option "" file_key)
                        (from_option "" node_id) (from_option "" figma_token) ;;
        if node_is_empty figma_data then
          Ok (error_response 404 "Failed to fetch Figma data. Check your token and URL")
        else
          let elements := extract_ui_elements_default figma_data in
          let frame_name := from_option "UI Screen" (node_name figma_data) in
          let ai_enhanced_elements :=
            enhance_with_deepseek deepseek_post json_loads elements frame_name
              (from_option "" deepseek_key) in
          let markdown := generate_markdown repr ai_enhanced_elements frame_name in
          Ok {| statusCode := 200;
                headers := json_headers;
                body := DocumentBody markdown frame_name
                          (Z.of_nat (length ai_enhanced_elements));
                isBase64Encoded := Some false |}.

Definition handler (ev : event) : response :=
  let method := from_option "GET" (ev_httpMethod ev) in
  if String.eqb method "OPTIONS" then
    {| statusCode := 200;
       headers := [("Access-Control-Allow-Origin", "*");
                   ("Access-Control-Allow-Methods", "POST, OPTIONS");
                   ("Access-Control-Allow-Headers", "Content-Type");
                   ("Access-Control-Max-Age", "86400")];
       body := EmptyBody;
       isBase64Encoded := None |}
  else if negb (String.eqb method "POST") then
    error_response 405 "Method not allowed"
  else
    match handler_try ev with
    | Ok r => r
    | Raise e => error_response 500 ("Internal error: " ++ exn_message e)
    end.

End Handler.

(** A reader that knows the empty object and one reply used in the
    examples, and fails on other texts the way [json.loads] fails on
    text that is not JSON. *)
Definition partial_reply_text : string :=
  "[{" ++ Str.dquote ++ "id" ++ Str.dquote ++ ": 1, "
  ++ Str.dquote ++ "description" ++ Str.dquote ++ ": "
  ++ Str.dquote ++ "Main title" ++ Str.dquote ++ "}]".

Definition partial_reply : pyval :=
  PList [PDict [("id", PInt 1); ("description", PStr "Main title")]].

Definition sample_completion (text : string) : pyval :=
  PDict [("choices", PList [PDict [("message", PDict [("content", PStr text)])]])].

Definition sample_element : element :=
  {| el_id := 1; el_type := "text"; el_name := "title"; el_raw_name := "Title";
     el_figma_type := "TEXT"; el_description := None; el_logic := None |}.

(** A request text whose figmaUrl is a no-break space (U+00A0) between
    two spaces, and a reader that knows it. *)
Definition no_break_space : string :=
  String (ascii_of_nat 194) (String (ascii_of_nat 160) EmptyString).

Definition blank_request_text : string :=
  "{" ++ Str.dquote ++ "figmaUrl" ++ Str.dquote ++ ": "
  ++ Str.dquote ++ " " ++ no_break_space ++ " " ++ Str.dquote ++ "}".

Definition blank_json_loads (text : string) : result pyval :=
  if String.eqb text blank_request_text
  then Ok (PDict [("figmaUrl", PStr (" " ++ no_break_space ++ " "))])
  else Raise JSONDecodeError.

Definition sample_url : string := "https://figma.com/file/ABC123/Test?node-id=1-2".

Definition sample_request_text : string :=
  "{" ++ Str.dquote ++ "figmaUrl" ++ Str.dquote ++ ": "
  ++ Str.dquote ++ sample_url ++ Str.dquote ++ "}".

Definition sample_json_loads (text : string) : result pyval :=
  if String.eqb text "{}" then Ok (PDict [])
  else if String.eqb text partial_reply_text then Ok partial_reply
  else if String.eqb text sample_request_text then Ok (PDict [("figmaUrl", PStr sample_url)])
  else Raise JSONDecodeError.

(** An environment with both credentials, a design API that cannot be
    reached, and fixed texts for what the examples do not look at. *)
Definition sample_environ (name : string) : option string :=
  if String.eqb name "FIGMA_ACCESS_TOKEN" then Some "figd_token"
  else if String.eqb name "DEEPSEEK_API_KEY" then Some "sk_key"
  else None.

Definition unreachable_figma (url token : string) : result figma_response :=
  Raise URLError.

Definition sample_deepseek_post (prompt api_key : string) : result pyval :=
  Raise URLError.

Definition sample_repr (v : pyval) : string := "<value>".

Definition sample_exn_message (e : exn) : string :=
  match e with
  | JSONDecodeError => "Expecting value: line 1 column 1 (char 0)"
  | URLError => "<urlopen error>"
  | _ => "<message>"
  end.

(** ** Vocabulary for further properties *)

(** The class [[a-z0-9_]]. *)
Definition is_lower_word (c : ascii) : bool :=
  Str.is_lower c || Str.is_digit c || Ascii.eqb c "_".

(** The class of a node id after the hyphens are rewritten: [[0-9%:]]. *)
Definition is_lookup_id_char (c : ascii) : bool :=
  Str.is_digit c || Ascii.eqb c "%" || Ascii.eqb c ":".

(** An answer of the design API with one node, for the examples. *)
Definition sample_document : node :=
  Node (Some "FRAME") (Some "Login") None
       (Some [ Node (Some "TEXT") (Some "Title") None None ["id"];
               Node (Some "RECTANGLE") (Some "Btn") (Some 4%Q) None ["id"] ])
       ["id"].

Definition sample_answer : figma_response :=
  {| resp_nodes := Some [("1:2", Some {| entry_document := Some sample_document |})] |}.

Definition sample_figma_get (url token : string) : result figma_response :=
  Ok sample_answer.

(** What the enricher must leave alone in an element. *)
Definition element_core (e : element) : Z * string * string * string * string :=
  (el_id e, el_type e, el_name e, el_raw_name e, el_figma_type e).

Definition has_both_texts (e : element) : bool :=
  match el_description e, el_logic e with
  | Some _, Some _ => true
  | _, _ => false
  end.

(** The reply item for an id: the last item of the reply whose "id" is
    equal to it as Python compares keys. *)
Definition has_id (key item : pyval) : bool :=
  match item with
  | PDict d =>
      match Py.lookup "id" d with
      | Some k => Py.eqb k key
      | None => false
      end
  | _ => false
  end.

Fixpoint last_with_id (key : pyval) (items : list pyval) : option pyval :=
  match items with
  | [] => None
  | item :: rest =>
      match last_with_id key rest with
      | Some x => Some x
      | None => if has_id key item then Some item else None
      end
  end.

(** A field of the item found, or the default text. *)
Definition field_or (item : option pyval) (field default : string) : pyval :=
  match item with
  | Some (PDict d) => from_option (PStr default) (Py.lookup field d)
  | _ => PStr default
  end.

Definition apply_reply (items : list pyval) (e : element) : element :=
  let item := last_with_id (PInt (el_id e)) items in
  set_logic (set_description e (field_or item "description" (default_description e)))
            (field_or item "logic" default_logic).

(** An item of a reply that can be indexed: an object with a hashable
    "id". *)
Definition indexable (item : pyval) : bool :=
  match item with
  | PDict d =>
      match Py.lookup "id" d with
      | Some k => Py.hashable k
      | None => false
      end
  | _ => false
  end.

(** A reply with two items for the same id, and a reader that knows its
    text. *)
Definition repeated_reply_text : string := "[two items for id 1]".

Definition repeated_reply : list pyval :=
  [ PDict [("id", PInt 1); ("description", PStr "First"); ("logic", PStr "Opens")];
    PDict [("id", PFloat 1%Q); ("description", PStr "Second")] ].

Definition repeated_json_loads (text : string) : result pyval :=
  if String.eqb text repeated_reply_text then Ok (PList repeated_reply)
  else Raise JSONDecodeError.

(** How often a character occurs in a text. *)
Fixpoint count_char (c : ascii) (s : string) : nat :=
  match s with
  | EmptyString => 0%nat
  | String a s' => ((if Ascii.eqb a c then 1 else 0) + count_char c s')%nat
  end.

(** The occurrences in the four texts of an element's row. *)
Definition count_in_fields (c : ascii) (repr : pyval -> string) (e : element) : nat :=
  (count_char c (el_type e) + count_char c (el_name e)
   + count_char c (MarkdownSpec.cell repr (el_description e))
   + count_char c (MarkdownSpec.cell repr (el_logic e)))%nat.

Fixpoint count_in_all_fields (c : ascii) (repr : pyval -> string) (l : list element) : nat :=
  match l with
  | [] => 0%nat
  | e :: rest => (count_in_fields c repr e + count_in_all_fields c repr rest)%nat
  end.

Definition newline_char : ascii := ascii_of_nat 10.

(** The request names a node: its body is a JSON object whose figmaUrl
    is a text from which the parser gets a file key and a node id. *)
Definition names_node (json_loads : string -> result pyval) (ev : event)
           (file_key node_id : string) : Prop :=
  exists raw d s,
    body_text ev = Ok raw
    /\ json_loads raw = Ok (PDict d)
    /\ Py.lookup "figmaUrl" d = Some (PStr s)
    /\ parse_figma_url (Str.strip_ws s) = (Some file_key, Some node_id).

Definition sample_request : event :=
  {| ev_httpMethod := Some "POST"; ev_body := Some (Some sample_request_text) |}.

Definition no_environ (name : string) : option string := None.

Definition figma_only_environ (name : string) : option string :=
  if String.eqb name "FIGMA_ACCESS_TOKEN" then Some "figd_token" else None.

Definition forbidden_figma (url token : string) : result figma_response :=
  Raise (HTTPError 403).

(** * Properties *)

(** ** Characters *)

Ltac by_cases_on_char c :=
  destruct c as [[] [] [] [] [] [] [] []]; vm_compute; try reflexivity; try discriminate; auto.

Lemma lower_char_underscore (c : ascii) :
  Ascii.eqb (Str.lower_char c) "_" = Ascii.eqb c "_".
Proof. by_cases_on_char c. Qed.

Lemma lower_char_word (c : ascii) :
  Str.is_word (Str.lower_char c) = Str.is_word c.
Proof. by_cases_on_char c. Qed.

Lemma lower_char_idem (c : ascii) :
  Str.lower_char (Str.lower_char c) = Str.lower_char c.
Proof. by_cases_on_char c. Qed.

Lemma underscore_eqb (c : ascii) : Ascii.eqb c "_" = true -> c = "_"%char.
Proof. apply Ascii.eqb_eq. Qed.

(** ** Strings *)

Lemma is_empty_true (s : string) : Str.is_empty s = true -> s = "".
Proof. destruct s; [reflexivity | discriminate]. Qed.


Lemma append_nil_r (s : string) : s ++ "" = s.
Proof. induction s; simpl; congruence. Qed.

Lemma append_assoc (a b c : string) : (a ++ b) ++ c = a ++ (b ++ c).
Proof. induction a; simpl; congruence. Qed.

Lemma lower_idem (s : string) : Str.lower (Str.lower s) = Str.lower s.
Proof.
  unfold Str.lower. induction s as [|c s IH]; simpl; [reflexivity|].
  now rewrite lower_char_idem, IH.
Qed.

(** *** Stripping underscores *)

Lemma lstrip_rstrip_comm (c : ascii) (s : string) :
  Str.lstrip c (Str.rstrip c s) = Str.rstrip c (Str.lstrip c s).
Proof.
  induction s as [|a s IH]; simpl; [reflexivity|].
  destruct (Ascii.eqb a c) eqn:Ea; simpl.
  - destruct (Str.is_empty (Str.rstrip c s)) eqn:Er; simpl.
    + rewrite <- IH. apply is_empty_true in Er. now rewrite Er.
    + now rewrite Ea.
  - now rewrite Ea.
Qed.

Lemma rstrip_idem (c : ascii) (s : string) :
  Str.rstrip c (Str.rstrip c s) = Str.rstrip c s.
Proof.
  induction s as [|a s IH]; simpl; [reflexivity|].
  destruct (Ascii.eqb a c && Str.is_empty (Str.rstrip c s))%bool eqn:E; simpl;
    [reflexivity|].
  now rewrite IH, E.
Qed.

Lemma lstrip_idem (c : ascii) (s : string) :
  Str.lstrip c (Str.lstrip c s) = Str.lstrip c s.
Proof.
  induction s as [|a s IH]; simpl; [reflexivity|].
  destruct (Ascii.eqb a c) eqn:E; simpl; [assumption | now rewrite E].
Qed.

Lemma strip_idem (c : ascii) (s : string) :
  Str.strip c (Str.strip c s) = Str.strip c s.
Proof.
  unfold Str.strip.
  now rewrite (lstrip_rstrip_comm c (Str.lstrip c s)), lstrip_idem, rstrip_idem.
Qed.

Lemma lower_lstrip (s : string) :
  Str.lower (Str.lstrip "_" s) = Str.lstrip "_" (Str.lower s).
Proof.
  unfold Str.lower. induction s as [|a s IH]; simpl; [reflexivity|].
  rewrite lower_char_underscore. destruct (Ascii.eqb a "_"); [assumption | reflexivity].
Qed.

Lemma map_is_empty (f : ascii -> ascii) (s : string) :
  Str.is_empty (Str.map f s) = Str.is_empty s.
Proof. destruct s; reflexivity. Qed.

Lemma lower_rstrip (s : string) :
  Str.lower (Str.rstrip "_" s) = Str.rstrip "_" (Str.lower s).
Proof.
  unfold Str.lower. induction s as [|a s IH]; simpl; [reflexivity|].
  rewrite lower_char_underscore, <- IH, map_is_empty.
  destruct (Ascii.eqb a "_" && Str.is_empty (Str.rstrip "_" s))%bool; reflexivity.
Qed.

Lemma lower_strip (s : string) :
  Str.lower (Str.strip "_" s) = Str.strip "_" (Str.lower s).
Proof. unfold Str.strip. now rewrite lower_rstrip, lower_lstrip. Qed.

(** *** The two substitutions *)

Lemma re_sub_nonword_word (s : string) :
  Str.forallb Str.is_word (re_sub_nonword s) = true.
Proof.
  unfold re_sub_nonword. induction s as [|a s IH]; simpl; [reflexivity|].
  rewrite IH, andb_true_r. destruct (Str.is_word a) eqn:E; [assumption | reflexivity].
Qed.

Lemma re_sub_nonword_fixed (s : string) :
  Str.forallb Str.is_word s = true -> re_sub_nonword s = s.
Proof.
  unfold re_sub_nonword. induction s as [|a s IH]; simpl; [reflexivity|].
  intros [Ha Hs]%andb_prop. now rewrite Ha, IH.
Qed.

Lemma re_sub_runs_word (b : bool) (s : string) :
  Str.forallb Str.is_word s = true ->
  Str.forallb Str.is_word (re_sub_runs b s) = true.
Proof.
  revert b. induction s as [|a s IH]; intros b; simpl; [reflexivity|].
  intros [Ha Hs]%andb_prop.
  destruct (Ascii.eqb a "_"); [destruct b|]; simpl; rewrite ?Ha, ?IH; auto.
Qed.

Lemma lstrip_word (c : ascii) (s : string) :
  Str.forallb Str.is_word s = true ->
  Str.forallb Str.is_word (Str.lstrip c s) = true.
Proof.
  induction s as [|a s IH]; simpl; [reflexivity|].
  intros H. destruct (andb_prop _ _ H) as [Ha Hs].
  destruct (Ascii.eqb a c); simpl; [auto | assumption].
Qed.

Lemma rstrip_word (c : ascii) (s : string) :
  Str.forallb Str.is_word s = true ->
  Str.forallb Str.is_word (Str.rstrip c s) = true.
Proof.
  induction s as [|a s IH]; simpl; [reflexivity|].
  intros [Ha Hs]%andb_prop.
  destruct (Ascii.eqb a c && Str.is_empty (Str.rstrip c s))%bool; simpl;
    [reflexivity | now rewrite Ha, IH].
Qed.

Lemma lower_word (s : string) :
  Str.forallb Str.is_word (Str.lower s) = Str.forallb Str.is_word s.
Proof.
  unfold Str.lower. induction s as [|a s IH]; simpl; [reflexivity|].
  now rewrite lower_char_word, IH.
Qed.

Lemma re_sub_runs_settled (b : bool) (s : string) :
  settled b (re_sub_runs b s) = true.
Proof.
  revert b. induction s as [|a s IH]; intro b; simpl; [reflexivity|].
  destruct (Ascii.eqb a "_") eqn:Ea.
  - destruct b; simpl; [apply IH | apply IH].
  - simpl. rewrite Ea. apply IH.
Qed.

Lemma re_sub_runs_fixed (b : bool) (s : string) :
  settled b s = true -> re_sub_runs b s = s.
Proof.
  revert b. induction s as [|a s IH]; intro b; simpl; [reflexivity|].
  destruct (Ascii.eqb a "_") eqn:Ea.
  - destruct b; simpl; [discriminate|]. intros H. rewrite (IH true H).
    now rewrite (underscore_eqb _ Ea).
  - intros H. now rewrite (IH false H).
Qed.

Lemma settled_weaken (b : bool) (s : string) :
  settled b s = true -> settled false s = true.
Proof.
  destruct s as [|a s]; simpl; [reflexivity|].
  destruct (Ascii.eqb a "_"); [|auto]. now intros [_ H]%andb_prop.
Qed.

Lemma lstrip_settled (s : string) :
  settled false s = true -> settled true (Str.lstrip "_" s) = true.
Proof.
  destruct s as [|a s]; simpl; [reflexivity|].
  destruct (Ascii.eqb a "_") eqn:Ea; simpl.
  - intros H. destruct s as [|a' s]; simpl in *; [reflexivity|].
    destruct (Ascii.eqb a' "_") eqn:Ea'; simpl in *; [discriminate|].
    now rewrite Ea'.
  - now rewrite Ea.
Qed.

Lemma rstrip_settled (b : bool) (s : string) :
  settled b s = true -> settled b (Str.rstrip "_" s) = true.
Proof.
  revert b. induction s as [|a s IH]; intro b; simpl; [reflexivity|].
  destruct (Ascii.eqb a "_") eqn:Ea; simpl.
  - intros [Hb Hs]%andb_prop.
    destruct (Str.is_empty (Str.rstrip "_" s)); simpl; [reflexivity|].
    rewrite Ea, Hb. now apply IH.
  - rewrite Ea. apply IH.
Qed.

Lemma lower_settled (b : bool) (s : string) :
  settled b (Str.lower s) = settled b s.
Proof.
  unfold Str.lower. revert b. induction s as [|a s IH]; intro b; simpl; [reflexivity|].
  rewrite lower_char_underscore. now rewrite !IH.
Qed.

(** ** Name sanitization *)









(** What [sanitize_name] returns when the fallback is not taken: a string
    that each step of the pipeline leaves alone. *)
Lemma pipeline_fixed (t : string) :
  Str.forallb Str.is_word t = true ->
  settled false t = true ->
  let r := Str.lower (Str.strip "_" t) in
  Str.lower (Str.strip "_" (re_sub_underscores (re_sub_nonword r))) = r.
Proof.
  intros Hw Hs r.
  assert (Hrw : Str.forallb Str.is_word r = true).
  { unfold r, Str.strip. rewrite lower_word.
    now apply rstrip_word, lstrip_word. }
  assert (Hrs : settled true r = true).
  { unfold r, Str.strip. rewrite lower_settled.
    now apply rstrip_settled, lstrip_settled. }
  rewrite (re_sub_nonword_fixed _ Hrw).
  unfold re_sub_underscores.
  rewrite (re_sub_runs_fixed false r (settled_weaken _ _ Hrs)).
  unfold r. now rewrite <- lower_strip, strip_idem, lower_idem.
Qed.

(** C7. Sanitizing a sanitized name changes nothing. *)
Theorem sanitize_name_idempotent (s : string) :
  sanitize_name (sanitize_name s) = sanitize_name s.
Proof.
  set (t := re_sub_underscores (re_sub_nonword s)).
  assert (H : sanitize_name s
              = if Str.is_empty (Str.lower (Str.strip "_" t))
                then "element" else Str.lower (Str.strip "_" t)) by reflexivity.
  rewrite H.
  destruct (Str.is_empty (Str.lower (Str.strip "_" t))) eqn:E; [reflexivity|].
  assert (Hw : Str.forallb Str.is_word t = true)
    by (apply re_sub_runs_word, re_sub_nonword_word).
  assert (Hs : settled false t = true) by apply re_sub_runs_settled.
  unfold sanitize_name. rewrite (pipeline_fixed t Hw Hs). now rewrite E.
Qed.

(** ** The element extractor *)

Lemma node_induction (P : node -> Prop) :
  (forall type name radius children others,
      (forall cl, children = Some cl -> Forall P cl) ->
      P (Node type name radius children others)) ->
  forall n, P n.
Proof.
  intros step. fix IH 1. intros [type name radius [cl|] others].
  - apply step. intros cl' E. injection E as <-.
    induction cl as [|c cl IHcl]; constructor; [apply IH | exact IHcl].
  - apply step. discriminate.
Qed.

Lemma container_not_classified (n : node) :
  str_in (from_option "" (node_type n)) ["FRAME"; "GROUP"; "COMPONENT"; "INSTANCE"] = true ->
  ExtractSpec.classify n = None.
Proof.
  unfold ExtractSpec.classify, str_in. cbn [existsb].
  intros H. repeat apply orb_prop in H as [H|H]; try discriminate;
    apply String.eqb_eq in H; rewrite H; reflexivity.
Qed.

Lemma numbered_app (k : Z) (a b : list node) :
  ExtractSpec.numbered k (a ++ b)
  = (ExtractSpec.numbered k a
     ++ ExtractSpec.numbered (k + Z.of_nat (length a)) b)%list.
Proof.
  revert k. induction a as [|x a IH]; intro k; cbn [ExtractSpec.numbered app length].
  - now rewrite Z.add_0_r.
  - rewrite IH. do 3 f_equal. lia.
Qed.

Lemma numbered_length (k : Z) (l : list node) :
  length (ExtractSpec.numbered k l) = length l.
Proof. revert k. induction l; intro k; simpl; [reflexivity | now rewrite IHl]. Qed.

Lemma numbered_ids (k : Z) (l : list node) :
  map el_id (ExtractSpec.numbered k l)
  = map (fun i => k + Z.of_nat i) (seq 0 (length l)).
Proof.
  revert k. induction l as [|x l IH]; intro k; [reflexivity|].
  cbn [ExtractSpec.numbered map length seq]. rewrite IH.
  rewrite <- seq_shift, map_map. f_equal.
  - cbn. lia.
  - apply map_ext. intros i. lia.
Qed.

(** The state after the walk of a list of children, given what the walk
    of each child does. *)
Lemma visit_children_discovered (cl : list node) :
  Forall (fun c => forall els k,
              extract_ui_elements c els k
              = ((els ++ ExtractSpec.numbered k (ExtractSpec.discovered c))%list,
                 k + Z.of_nat (length (ExtractSpec.discovered c)))) cl ->
  forall els k,
    fold_left (fun st child => extract_ui_elements child (fst st) (snd st)) cl (els, k)
    = ((els ++ ExtractSpec.numbered k (flat_map ExtractSpec.discovered cl))%list,
       k + Z.of_nat (length (flat_map ExtractSpec.discovered cl))).
Proof.
  induction 1 as [|c cl Hc _ IH]; intros els k; cbn [fold_left flat_map].
  - cbn. now rewrite app_nil_r, Z.add_0_r.
  - cbn [fst snd]. rewrite Hc, IH, numbered_app, length_app, app_assoc.
    f_equal. lia.
Qed.

(** The walk appends the discovered nodes to the list it is given,
    numbered from the counter it is given, and advances the counter by
    their number. *)
Lemma extract_ui_elements_discovered (n : node) :
  forall els k,
    extract_ui_elements n els k
    = ((els ++ ExtractSpec.numbered k (ExtractSpec.discovered n))%list,
       k + Z.of_nat (length (ExtractSpec.discovered n))).
Proof.
  induction n as [type name radius children others IH] using node_induction.
  intros els k.
  assert (Hvisit :
    match children with
    | Some cl =>
        fold_left (fun st child => extract_ui_elements child (fst st) (snd st)) cl (els, k)
    | None => (els, k)
    end
    = ((els ++ ExtractSpec.numbered k
                 match children with
                 | Some cl => flat_map ExtractSpec.discovered cl
                 | None => []
                 end)%list,
       k + Z.of_nat (length match children with
                            | Some cl => flat_map ExtractSpec.discovered cl
                            | None => []
                            end))).
  { destruct children as [cl|].
    - apply visit_children_discovered, IH. reflexivity.
    - cbn. now rewrite app_nil_r, Z.add_0_r. }
  cbn [extract_ui_elements ExtractSpec.discovered].
  destruct (str_in (from_option "" type) ["FRAME"; "GROUP"; "COMPONENT"; "INSTANCE"]) eqn:Ec.
  { rewrite (container_not_classified (Node type name radius children others) Ec).
    exact Hvisit. }
  unfold ExtractSpec.classify. cbn [node_type].
  destruct (String.eqb (from_option "" type) "TEXT") eqn:Et.
  { unfold ExtractSpec.numbered, ExtractSpec.element_of, ExtractSpec.classify.
    cbn [node_type node_name]. rewrite Et. reflexivity. }
  destruct (String.eqb (from_option "" type) "RECTANGLE") eqn:Er.
  { unfold ExtractSpec.numbered, ExtractSpec.element_of, ExtractSpec.classify.
    cbn [node_type node_name]. rewrite Et, Er.
    destruct (is_button_like (Node type name radius children others)); reflexivity. }
  destruct (str_in (from_option "" type)
              ["VECTOR"; "BOOLEAN_OPERATION"; "STAR"; "LINE"; "ELLIPSE"]) eqn:Ei.
  { unfold ExtractSpec.numbered, ExtractSpec.element_of, ExtractSpec.classify.
    cbn [node_type node_name]. rewrite Et, Er, Ei. reflexivity. }
  exact Hvisit.
Qed.

Lemma subsequence_nil {A : Type} (m : list A) : ExtractSpec.subsequence [] m.
Proof. induction m; constructor; assumption. Qed.

Lemma subsequence_app {A : Type} (a b c d : list A) :
  ExtractSpec.subsequence a b -> ExtractSpec.subsequence c d ->
  ExtractSpec.subsequence (a ++ c) (b ++ d).
Proof.
  induction 1 as [|x l m _ IH|x l m _ IH]; intros Hcd; cbn.
  - exact Hcd.
  - apply ExtractSpec.sub_skip, IH, Hcd.
  - apply ExtractSpec.sub_keep, IH, Hcd.
Qed.

Lemma discovered_in_preorder (n : node) :
  ExtractSpec.subsequence (ExtractSpec.discovered n) (ExtractSpec.preorder n).
Proof.
  induction n as [type name radius children others IH] using node_induction.
  cbn [ExtractSpec.discovered ExtractSpec.preorder].
  destruct (ExtractSpec.classify _).
  - apply ExtractSpec.sub_keep, subsequence_nil.
  - apply ExtractSpec.sub_skip. destruct children as [cl|]; [|constructor].
    specialize (IH cl eq_refl). induction IH; cbn; [constructor|].
    now apply subsequence_app.
Qed.

(** C1. The ids of the extracted elements are 1, 2, ..., N in list
    order, for every tree; the elements are those of the discovered
    nodes, in the order of a depth-first walk that takes the children
    from left to right. *)
Theorem extract_ids_contiguous (n : node) :
  let elements := extract_ui_elements_default n in
  map el_id elements = map Z.of_nat (seq 1 (length elements))
  /\ elements = ExtractSpec.numbered 1 (ExtractSpec.discovered n)
  /\ ExtractSpec.subsequence (ExtractSpec.discovered n) (ExtractSpec.preorder n).
Proof.
  unfold extract_ui_elements_default.
  rewrite extract_ui_elements_discovered. cbn [fst app].
  split; [|split; [reflexivity | apply discovered_in_preorder]].
  rewrite numbered_ids, numbered_length, <- seq_shift, map_map.
  apply map_ext. intros i. lia.
Qed.

(** The tree of the specification's end-to-end example, with a group
    around the rectangle. *)
Example extract_two_elements :
  let tree :=
    Node (Some "FRAME") (Some "Test") None
         (Some [ Node (Some "TEXT") (Some "Title") None None ["id"];
                 Node (Some "GROUP") (Some "Actions") None
                      (Some [ Node (Some "RECTANGLE") (Some "Btn") (Some 4%Q) None ["id"] ])
                      ["id"] ])
         ["id"] in
  map (fun e => (el_id e, el_type e, el_name e)) (extract_ui_elements_default tree)
  = [(1, "text", "title"); (2, "button", "btn")]
  /\ extract_ui_elements_default (Node (Some "FRAME") (Some "Empty") None (Some []) ["id"])
     = [].
Proof. split; reflexivity. Qed.

(** *** The button heuristic *)

Lemma starts_with_lower (p s : string) :
  Str.lower p = p ->
  Str.starts_with p (Str.lower s) = ExtractSpec.starts_with_nocase p s.
Proof.
  unfold Str.lower. revert s. induction p as [|a p IH]; intros s Hp; [reflexivity|].
  cbn in Hp. injection Hp as Ha Hp.
  destruct s as [|b s]; [reflexivity|]. cbn.
  rewrite (IH s Hp). unfold ExtractSpec.same_letter. now rewrite Ha.
Qed.

Lemma contains_lower (p s : string) :
  Str.lower p = p ->
  Str.contains p (Str.lower s) = ExtractSpec.contains_nocase p s.
Proof.
  intros Hp. induction s as [|b s IH].
  - cbn. now rewrite <- (starts_with_lower p "" Hp).
  - cbn [ExtractSpec.contains_nocase]. rewrite <- IH, <- (starts_with_lower p _ Hp).
    reflexivity.
Qed.

Lemma Qpositive_spec (q : Q) : Qpositive q = true <-> (0 < q)%Q.
Proof.
  unfold Qpositive. rewrite negb_true_iff, <- not_true_iff_false, Qle_bool_iff.
  split; [apply Qnot_le_lt | apply Qlt_not_le].
Qed.

(** C2. A RECTANGLE node adds exactly one element to the list, whatever
    the list and the counter are; it is a button if the name contains
    "button" or "btn" in any letter case or the corner radius is positive,
    and a card otherwise.  The three examples of the specification
    follow. *)
Theorem rectangle_classification
        (name : option string) (cornerRadius : option Q)
        (children : option (list node)) (others : list string)
        (elements : list element) (counter : Z) :
  let n := Node (Some "RECTANGLE") name cornerRadius children others in
  let raw_name := from_option "Unnamed" name in
  let button :=
    ExtractSpec.contains_nocase "button" (from_option "" name)
    || ExtractSpec.contains_nocase "btn" (from_option "" name)
    || Qpositive (from_option 0%Q cornerRadius) in
  extract_ui_elements n elements counter
  = ((elements ++ [ {| el_id := counter;
                       el_type := if button then "button" else "card";
                       el_name := sanitize_name raw_name;
                       el_raw_name := raw_name;
                       el_figma_type := "RECTANGLE";
                       el_description := None;
                       el_logic := None |} ])%list,
     counter + 1)
  /\ (forall q, Qpositive q = true <-> (0 < q)%Q)
  /\ map el_type (extract_ui_elements_default
                    (Node (Some "RECTANGLE") (Some "Submit Button") (Some 0%Q) None []))
     = ["button"]
  /\ map el_type (extract_ui_elements_default
                    (Node (Some "RECTANGLE") (Some "Photo") (Some 0%Q) None []))
     = ["card"]
  /\ map el_type (extract_ui_elements_default
                    (Node (Some "RECTANGLE") (Some "Photo") (Some 8%Q) None []))
     = ["button"].
Proof.
  split; [|split; [exact Qpositive_spec | repeat split; reflexivity]].
  cbn [extract_ui_elements from_option str_in existsb String.eqb Ascii.eqb
         Bool.eqb orb].
  unfold is_button_like. cbn [node_name node_cornerRadius].
  rewrite !contains_lower by reflexivity.
  destruct (_ || _ || _); reflexivity.
Qed.

(** ** The URL parser *)

Lemma drop_prefix_some (p s r : string) :
  Str.drop_prefix p s = Some r -> s = p ++ r.
Proof.
  revert s. induction p as [|a p IH]; intros s H; cbn in H.
  - now injection H as ->.
  - destruct s as [|b s]; [discriminate|].
    destruct (Ascii.eqb a b) eqn:E; [|discriminate].
    apply Ascii.eqb_eq in E. subst b. cbn. f_equal. now apply IH.
Qed.

Lemma drop_prefix_append (p r : string) : Str.drop_prefix p (p ++ r) = Some r.
Proof.
  induction p as [|a p IH]; cbn; [reflexivity|].
  now rewrite Ascii.eqb_refl.
Qed.

Lemma span_spec (class : ascii -> bool) (s : string) :
  s = fst (Str.span class s) ++ snd (Str.span class s)
  /\ Str.forallb class (fst (Str.span class s)) = true
  /\ match snd (Str.span class s) with
     | String c _ => class c = false
     | EmptyString => True
     end.
Proof.
  induction s as [|a s (IH1 & IH2 & IH3)]; cbn; [auto|].
  destruct (class a) eqn:Ea.
  - destruct (Str.span class s) as [run rest]. cbn in *.
    rewrite Ea, IH2. repeat split; [congruence | exact IH3].
  - cbn. auto.
Qed.

Lemma span_head (class : ascii -> bool) (c : ascii) (s : string) :
  class c = true -> Str.is_empty (fst (Str.span class (String c s))) = false.
Proof.
  intros H. cbn. rewrite H. now destruct (Str.span class s).
Qed.

Lemma match_at_some (literal : string) (class : ascii -> bool) (s k : string) :
  match_at literal class s = Some k ->
  UrlSpec.segment_at [literal] class s k.
Proof.
  unfold match_at. destruct (Str.drop_prefix literal s) as [rest|] eqn:Ed; [|discriminate].
  destruct (Str.is_empty (fst (Str.span class rest))) eqn:Ee; [discriminate|].
  intros H. injection H as <-.
  destruct (span_spec class rest) as (H1 & H2 & H3).
  exists literal, (snd (Str.span class rest)).
  repeat split; try assumption.
  - now left.
  - rewrite <- H1. now apply drop_prefix_some.
  - intros E. now rewrite E in Ee.
Qed.

Lemma match_at_none (literal : string) (class : ascii -> bool) (s : string) :
  match_at literal class s = None ->
  UrlSpec.nothing_at [literal] class s.
Proof.
  intros H lit c rest [<-|[]] ->. unfold match_at in H.
  rewrite drop_prefix_append in H.
  destruct (class c) eqn:Ec; [|reflexivity].
  now rewrite (span_head class c rest Ec) in H.
Qed.

Lemma segment_at_more (literal : string) (literals : list string)
      (class : ascii -> bool) (s k : string) :
  UrlSpec.segment_at literals class s k ->
  UrlSpec.segment_at (literal :: literals) class s k.
Proof.
  intros (lit & rest & Hin & H). exists lit, rest. split; [now right | exact H].
Qed.

Lemma match_any_some (literals : list string) (class : ascii -> bool) (s k : string) :
  match_any literals class s = Some k ->
  UrlSpec.segment_at literals class s k.
Proof.
  induction literals as [|literal literals IH]; cbn; [discriminate|].
  destruct (match_at literal class s) as [g|] eqn:E.
  - intros H. injection H as ->.
    destruct (match_at_some _ _ _ _ E) as (lit & rest & [<-|[]] & H).
    exists literal, rest. split; [now left | exact H].
  - intros H. now apply segment_at_more, IH.
Qed.

Lemma match_any_none (literals : list string) (class : ascii -> bool) (s : string) :
  match_any literals class s = None ->
  UrlSpec.nothing_at literals class s.
Proof.
  induction literals as [|literal literals IH]; cbn.
  - intros _ lit c rest [].
  - destruct (match_at literal class s) eqn:E; [discriminate|].
    intros H lit c rest [<-|Hin] Hs.
    + apply (match_at_none _ _ _ E literal c rest); [now left | exact Hs].
    + now apply (IH H lit c rest).
Qed.

Lemma re_search_some (literals : list string) (class : ascii -> bool) (url k : string) :
  re_search (match_any literals class) url = Some k ->
  UrlSpec.first_segment literals class url k.
Proof.
  induction url as [|a url IH]; cbn [re_search];
    destruct (match_any literals class _) as [g|] eqn:E; try discriminate.
  - intros H. injection H as ->. exists "", "".
    split; [reflexivity|]. split; [now apply match_any_some|].
    intros b s _ Hlen. cbn in Hlen. lia.
  - intros H. injection H as ->. exists "", (String a url).
    split; [reflexivity|]. split; [now apply match_any_some|].
    intros b s _ Hlen. cbn in Hlen. lia.
  - intros H. destruct (IH H) as (before & s & Hurl & Hseg & Hleft).
    exists (String a before), s. split; [cbn; now rewrite Hurl|].
    split; [exact Hseg|].
    intros [|b before'] s' Hs' Hlen.
    + cbn in Hs'. subst s'. now apply match_any_none.
    + cbn in Hs'. injection Hs' as _ Hs'. apply (Hleft before' s' Hs').
      cbn in Hlen. lia.
Qed.

Lemma re_search_none (literals : list string) (class : ascii -> bool) (url : string) :
  re_search (match_any literals class) url = None ->
  UrlSpec.no_segment literals class url.
Proof.
  induction url as [|a url IH]; cbn [re_search];
    destruct (match_any literals class _) as [g|] eqn:E; try discriminate.
  - intros _ [|b before] s Hs; [|discriminate].
    cbn in Hs. subst s. now apply match_any_none.
  - intros H [|b before] s Hs.
    + cbn in Hs. subst s. now apply match_any_none.
    + cbn in Hs. injection Hs as _ Hs. now apply (IH H before s).
Qed.

Lemma starts_with_append (p s : string) : Str.starts_with p (p ++ s) = true.
Proof. induction p as [|a p IH]; cbn; [reflexivity|]. now rewrite Ascii.eqb_refl. Qed.

Lemma contains_append (p before s : string) :
  Str.contains p (before ++ p ++ s) = true.
Proof.
  induction before as [|a before IH].
  - cbn [String.append]. destruct (p ++ s) eqn:E; cbn [Str.contains];
      rewrite <- E, starts_with_append; reflexivity.
  - cbn [String.append Str.contains]. rewrite IH. apply orb_true_r.
Qed.

Lemma first_segment_contains (literal : string) (class : ascii -> bool) (url k : string) :
  UrlSpec.first_segment [literal] class url k -> Str.contains literal url = true.
Proof.
  intros (before & s & -> & (lit & rest & [<-|[]] & -> & _) & _).
  apply contains_append.
Qed.

Lemma get_map (f : ascii -> ascii) (s : string) (i : nat) :
  String.get i (Str.map f s) = option_map f (String.get i s).
Proof.
  revert i. induction s as [|a s IH]; intros [|i]; cbn; auto.
Qed.

(** The node id is the leftmost segment with its hyphens replaced, and
    nothing else is changed. *)
Lemma node_id_of_url (url : string) :
  match snd (parse_figma_url url) with
  | Some node_id =>
      exists run,
        UrlSpec.first_segment node_id_literals Str.is_node_id_char url run
        /\ node_id = Str.replace "-" ":" run
        /\ forall i, String.get i node_id
                     = option_map (fun c => if Ascii.eqb c "-" then ":"%char else c)
                                  (String.get i run)
  | None => UrlSpec.no_segment node_id_literals Str.is_node_id_char url
  end.
Proof.
  unfold parse_figma_url. cbn [snd].
  destruct (re_search (match_any node_id_literals Str.is_node_id_char) url) as [run|] eqn:E;
    cbn [option_map].
  - exists run. split; [now apply re_search_some|]. split; [reflexivity|].
    intros i. apply get_map.
  - now apply re_search_none.
Qed.

(** The pattern for the node id is searched anywhere in the URL, not
    in the name of a query parameter: this URL has no parameter named
    node-id, and the parser returns a node id taken from the end of
    another parameter's name. *)
Lemma unanchored_node_id_pattern :
  UrlSpec.query_parameter "node-id"
    "https://www.figma.com/file/ABC123/App?starting-point-node-id=12-34" = None
  /\ UrlSpec.query_parameters
       "https://www.figma.com/file/ABC123/App?starting-point-node-id=12-34"
     = [("starting-point-node-id", "12-34")]
  /\ parse_figma_url "https://www.figma.com/file/ABC123/App?starting-point-node-id=12-34"
     = (Some "ABC123", Some "12:34")
  /\ snd (parse_figma_url
            "https://www.figma.com/file/ABC123/App?starting-point-node-id=12-34")
     <> None.
Proof. repeat split; try (vm_compute; reflexivity). vm_compute. discriminate. Qed.

(** C5, amended. [parse_figma_url] is a total function: it returns a
    pair for every string.  The file key is the alphanumeric segment
    that follows the leftmost "figma.com/file/" or "figma.com/design/"
    that has one, and is absent when no place of the URL has one; the
    node id is the segment of digits, percent signs and hyphens that
    follows the leftmost "node-id=" that has one, wherever in the URL
    that text stands, with each hyphen turned into a colon, and is
    absent when there is none; a URL that does not hold the text
    "node-id=" has no node id. *)
Theorem parse_figma_url_spec (url : string) :
  match fst (parse_figma_url url) with
  | Some file_key =>
      UrlSpec.first_segment file_key_literals Str.is_alnum url file_key
  | None => UrlSpec.no_segment file_key_literals Str.is_alnum url
  end
  /\ match snd (parse_figma_url url) with
     | Some node_id =>
         exists run,
           UrlSpec.first_segment node_id_literals Str.is_node_id_char url run
           /\ node_id = Str.replace "-" ":" run
           /\ forall i, String.get i node_id
                        = option_map (fun c => if Ascii.eqb c "-" then ":"%char else c)
                                     (String.get i run)
     | None => UrlSpec.no_segment node_id_literals Str.is_node_id_char url
     end
  /\ (Str.contains "node-id=" url = false -> snd (parse_figma_url url) = None)
  /\ parse_figma_url "https://figma.com/file/ABC123/Test?node-id=1-2"
     = (Some "ABC123", Some "1:2").
Proof.
  unfold parse_figma_url. cbn [fst snd].
  split; [|split; [|split; [|reflexivity]]].
  - destruct (re_search (match_any file_key_literals Str.is_alnum) url) eqn:E.
    + now apply re_search_some.
    + now apply re_search_none.
  - apply (node_id_of_url url).
  - intros Hc.
    destruct (re_search (match_any node_id_literals Str.is_node_id_char) url) as [run|] eqn:E;
      [|reflexivity].
    apply re_search_some, first_segment_contains in E. congruence.
Qed.

(** ** The node fetcher *)

Lemma lookup_absent {A : Type} (key : string) (d : list (string * A)) :
  (forall k v, In (k, v) d -> k <> key) -> Py.lookup key d = None.
Proof.
  induction d as [|[k v] d IH]; intros H; cbn; [reflexivity|].
  destruct (String.eqb k key) eqn:E.
  - apply String.eqb_eq in E. exfalso. apply (H k v); [now left | exact E].
  - apply IH. intros k' v' Hin. apply (H k' v'). now right.
Qed.

(** A connection failure is a [URLError], which no clause of the fetcher
    catches: it reaches the caller. *)
Lemma fetch_propagates_connection_failure :
  fetch_figma_node (fun _ _ => Raise URLError) "ABC123" "1:2" "token" = Raise URLError
  /\ fetch_figma_node (fun _ _ => Raise URLError) "ABC123" "1:2" "token" <> Ok empty_node.
Proof. split; [reflexivity | discriminate]. Qed.

(** C4, amended. The fetcher returns the [document] of the entry found
    under the node id; it returns the empty mapping when the call fails
    with an HTTP error of any status, when the id is not among the nodes
    of the answer, and when the entry has no document; any other
    exception of the call reaches the caller. *)
Theorem fetch_figma_node_outcomes
        (figma_get : string -> string -> result figma_response)
        (file_key node_id token : string) :
  let url := "https://api.figma.com/v1/files/" ++ file_key ++ "/nodes?ids=" ++ node_id in
  let fetched := fetch_figma_node figma_get file_key node_id token in
  (forall data entry document,
      figma_get url token = Ok data ->
      Py.lookup node_id (from_option [] (resp_nodes data)) = Some (Some entry) ->
      entry_document entry = Some document ->
      fetched = Ok document)
  /\ (forall code, figma_get url token = Raise (HTTPError code) -> fetched = Ok empty_node)
  /\ (forall data,
         figma_get url token = Ok data ->
         Py.lookup node_id (from_option [] (resp_nodes data)) = None ->
         fetched = Ok empty_node)
  /\ (forall data entry,
         figma_get url token = Ok data ->
         Py.lookup node_id (from_option [] (resp_nodes data)) = Some (Some entry) ->
         entry_document entry = None ->
         fetched = Ok empty_node)
  /\ (forall e,
         figma_get url token = Raise e ->
         (forall code, e <> HTTPError code) ->
         fetched = Raise e).
Proof.
  intros url fetched. unfold fetched, fetch_figma_node. fold url.
  repeat split.
  - intros data entry document -> Hl Hd. cbn. rewrite Hl. cbn. now rewrite Hd.
  - now intros code ->.
  - intros data -> Hl. cbn. now rewrite Hl.
  - intros data entry -> Hl Hd. cbn. rewrite Hl. cbn. now rewrite Hd.
  - intros e -> Hne. destruct e; try reflexivity. now destruct (Hne code).
Qed.

Example fetch_figma_node_examples :
  let document := Node (Some "FRAME") (Some "Login") None (Some []) ["id"] in
  let answer := {| resp_nodes := Some [("1:2", Some {| entry_document := Some document |})] |} in
  fetch_figma_node (fun _ _ => Ok answer) "ABC123" "1:2" "token" = Ok document
  /\ fetch_figma_node (fun _ _ => Ok answer) "ABC123" "7:7" "token" = Ok empty_node
  /\ fetch_figma_node (fun _ _ => Raise (HTTPError 403)) "ABC123" "1:2" "token" = Ok empty_node
  /\ fetch_figma_node (fun _ _ => Raise (HTTPError 500)) "ABC123" "1:2" "token" = Ok empty_node.
Proof. repeat split. Qed.

Lemma contains_differs (p a b : string) :
  Str.contains p a = true -> Str.contains p b = false -> b <> a.
Proof. intros Ha Hb ->. congruence. Qed.

(** A percent sign in the value of the node-id parameter need not reach
    the node id.  The segment ends at the first character outside
    [0-9%-]: in "1-2x%3A5" it ends before the percent sign, the id is
    "1:2" and the answer's node "1:2" is found; in "1%3A2%3B3%3A4" it
    ends at the first letter and keeps one percent sign of three; in
    "I5-6%3B7-8" it is empty and the next place with a segment is not
    in the URL. *)
Lemma percent_sign_outside_segment :
  UrlSpec.query_parameter "node-id"
    "https://www.figma.com/design/AbC123/App?node-id=1-2x%3A5" = Some "1-2x%3A5"
  /\ Str.contains "%" "1-2x%3A5" = true
  /\ parse_figma_url "https://www.figma.com/design/AbC123/App?node-id=1-2x%3A5"
     = (Some "AbC123", Some "1:2")
  /\ Str.contains "%" "1:2" = false
  /\ fetch_figma_node sample_figma_get "AbC123" "1:2" "token" = Ok sample_document
  /\ UrlSpec.query_parameter "node-id"
       "https://www.figma.com/design/AbC123/App?node-id=1%3A2%3B3%3A4"
     = Some "1%3A2%3B3%3A4"
  /\ snd (parse_figma_url "https://www.figma.com/design/AbC123/App?node-id=1%3A2%3B3%3A4")
     = Some "1%3"
  /\ count_char "%" "1%3A2%3B3%3A4" = 3%nat
  /\ count_char "%" "1%3" = 1%nat
  /\ UrlSpec.query_parameter "node-id"
       "https://www.figma.com/design/AbC123/App?node-id=I5-6%3B7-8"
     = Some "I5-6%3B7-8"
  /\ snd (parse_figma_url "https://www.figma.com/design/AbC123/App?node-id=I5-6%3B7-8")
     = None.
Proof. repeat split; vm_compute; reflexivity. Qed.

(** C10, amended. The parser decodes nothing.  The node id is the
    segment of digits, percent signs and hyphens that follows the
    leftmost "node-id=" with a segment, with only the hyphens turned
    into colons: the percent signs of the segment stay where they are,
    and what follows the segment is dropped.  The fetcher puts the id
    as it is into the request and looks the answer up under it, so that
    an id with a percent sign is not found among node keys that have
    none, and the fetcher returns the empty mapping. *)
Theorem percent_encoded_node_id_not_found (url file_key node_id : string) :
  parse_figma_url url = (Some file_key, Some node_id) ->
  (exists run,
      UrlSpec.first_segment node_id_literals Str.is_node_id_char url run
      /\ node_id = Str.replace "-" ":" run
      /\ forall i, String.get i run = Some "%"%char <-> String.get i node_id = Some "%"%char)
  /\ forall (figma_get : string -> string -> result figma_response) token data,
      Str.contains "%" node_id = true ->
      figma_get ("https://api.figma.com/v1/files/" ++ file_key ++ "/nodes?ids=" ++ node_id)
                token = Ok data ->
      (forall key entry,
          In (key, entry) (from_option [] (resp_nodes data)) ->
          Str.contains "%" key = false) ->
      Py.lookup node_id (from_option [] (resp_nodes data)) = None
      /\ fetch_figma_node figma_get file_key node_id token = Ok empty_node.
Proof.
  intros Hparse. split.
  - pose proof (node_id_of_url url) as Hnode.
    rewrite Hparse in Hnode. cbn [snd] in Hnode.
    destruct Hnode as (run & Hseg & Hid & Hget).
    exists run. split; [exact Hseg|]. split; [exact Hid|].
    intros i. rewrite Hget. destruct (String.get i run) as [c|]; cbn; [|split; discriminate].
    split; intros H; injection H as H.
    + now subst c.
    + f_equal. revert H. by_cases_on_char c.
  - intros figma_get token data Hpct Hget Hkeys.
    assert (Hl : Py.lookup node_id (from_option [] (resp_nodes data)) = None).
    { apply lookup_absent. intros k v Hin.
      apply (contains_differs "%"); [exact Hpct | now apply (Hkeys k v)]. }
    split; [exact Hl|].
    unfold fetch_figma_node. rewrite Hget. cbn. now rewrite Hl.
Qed.

(** The URL "...?node-id=1%3A2": the class [0-9%-] ends the segment at
    the letter, the node id is "1%3", and it is not found. *)
Lemma percent_encoded_node_id_example :
  (exists run,
      UrlSpec.first_segment node_id_literals Str.is_node_id_char
        "https://www.figma.com/design/AbC123/App?node-id=1%3A2" run
      /\ "1%3" = Str.replace "-" ":" run
      /\ forall i, String.get i run = Some "%"%char <-> String.get i "1%3" = Some "%"%char)
  /\ forall (figma_get : string -> string -> result figma_response) token data,
      Str.contains "%" "1%3" = true ->
      figma_get ("https://api.figma.com/v1/files/" ++ "AbC123" ++ "/nodes?ids=" ++ "1%3")
                token = Ok data ->
      (forall key entry,
          In (key, entry) (from_option [] (resp_nodes data)) ->
          Str.contains "%" key = false) ->
      Py.lookup "1%3" (from_option [] (resp_nodes data)) = None
      /\ fetch_figma_node figma_get "AbC123" "1%3" token = Ok empty_node.
Proof.
  apply (percent_encoded_node_id_not_found
           "https://www.figma.com/design/AbC123/App?node-id=1%3A2" "AbC123" "1%3").
  vm_compute. reflexivity.
Defined.

(** ** The description enricher *)

Lemma enrich_element_fallback (m : list (pyval * pyval)) (e : element) :
  with_fallback (fst (enrich_element m e)) = with_fallback e.
Proof.
  unfold enrich_element.
  destruct (Py.get _ "description" _); [|reflexivity].
  destruct (Py.get _ "logic" _); reflexivity.
Qed.

(** The [except] clause does not see how far the loop went. *)
Lemma enrich_loop_fallback (m : list (pyval * pyval)) (elements : list element) :
  map with_fallback (fst (enrich_loop m elements)) = map with_fallback elements.
Proof.
  induction elements as [|e rest IH]; [reflexivity|].
  cbn [enrich_loop]. pose proof (enrich_element_fallback m e) as He.
  destruct (enrich_element m e) as [e' [x|]]; cbn [fst] in He.
  - cbn. now rewrite He.
  - destruct (enrich_loop m rest) as [rest' raised]. cbn in *. now rewrite He, IH.
Qed.

Lemma enhance_try_fallback
      (deepseek_post : string -> string -> result pyval)
      (json_loads : string -> result pyval)
      (elements : list element) (prompt api_key : string) :
  map with_fallback (fst (enhance_try deepseek_post json_loads elements prompt api_key))
  = map with_fallback elements.
Proof.
  unfold enhance_try.
  destruct (bind _ _); [apply enrich_loop_fallback | reflexivity].
Qed.

Lemma setitem_dicts (m : list (pyval * pyval)) (key item : pyval) :
  forallb (fun kv => is_dict (snd kv)) m = true -> is_dict item = true ->
  forallb (fun kv => is_dict (snd kv)) (Py.setitem m key item) = true.
Proof.
  intros Hm Hi. induction m as [|[k v] m IH]; cbn in *; [now rewrite Hi|].
  apply andb_prop in Hm as [Hv Hm].
  destruct (Py.eqb k key); cbn; [now rewrite Hi, Hm | now rewrite Hv, IH].
Qed.

Lemma ai_map_of_items_dicts (items : list pyval) (m m' : list (pyval * pyval)) :
  forallb (fun kv => is_dict (snd kv)) m = true ->
  ai_map_of_items items m = Ok m' ->
  forallb (fun kv => is_dict (snd kv)) m' = true.
Proof.
  revert m. induction items as [|item items IH]; intros m Hm; cbn.
  - intros H. now injection H as <-.
  - destruct item; cbn; try discriminate.
    destruct (Py.lookup "id" _) as [key|]; cbn; [|discriminate].
    destruct (Py.hashable key); [|discriminate].
    apply IH. now apply setitem_dicts.
Qed.

Lemma getkey_dict (m : list (pyval * pyval)) (key v : pyval) :
  forallb (fun kv => is_dict (snd kv)) m = true ->
  Py.getkey m key = Some v -> is_dict v = true.
Proof.
  induction m as [|[k w] m IH]; cbn; [discriminate|].
  intros [Hw Hm]%andb_prop. destruct (Py.eqb k key).
  - intros H. now injection H as <-.
  - now apply IH.
Qed.

Lemma enrich_element_succeeds (m : list (pyval * pyval)) (e : element) :
  forallb (fun kv => is_dict (snd kv)) m = true ->
  snd (enrich_element m e) = None.
Proof.
  intros Hm. unfold enrich_element.
  destruct (Py.getkey m (PInt (el_id e))) as [v|] eqn:E; cbn [from_option].
  - apply (getkey_dict m _ _ Hm) in E. destruct v; try discriminate. reflexivity.
  - reflexivity.
Qed.

Lemma enrich_loop_succeeds (m : list (pyval * pyval)) (elements : list element) :
  forallb (fun kv => is_dict (snd kv)) m = true ->
  enrich_loop m elements = (map (fun e => fst (enrich_element m e)) elements, None).
Proof.
  intros Hm. induction elements as [|e rest IH]; [reflexivity|].
  cbn [enrich_loop map]. pose proof (enrich_element_succeeds m e Hm) as He.
  destruct (enrich_element m e) as [e' raised]. cbn in He. subst raised.
  now rewrite IH.
Qed.

(** A reply that is not of the structure the prompt asks for, and is
    nonetheless applied: the item has no "logic", the element receives
    the description of the reply and the default logic text, not the
    fallback pair.  The same happens for a reply that is an empty object:
    each element gets the two defaults. *)
Lemma enricher_applies_malformed_reply :
  well_formed_reply partial_reply = false
  /\ enhance_with_deepseek (fun _ _ => Ok (sample_completion partial_reply_text))
       sample_json_loads [sample_element] "Screen" "key"
     = [ set_logic (set_description sample_element (PStr "Main title"))
                   (PStr default_logic) ]
  /\ enhance_with_deepseek (fun _ _ => Ok (sample_completion partial_reply_text))
       sample_json_loads [sample_element] "Screen" "key"
     <> map with_fallback [sample_element]
  /\ well_formed_reply (PDict []) = false
  /\ enhance_with_deepseek (fun _ _ => Ok (sample_completion "{}"))
       sample_json_loads [sample_element] "Screen" "key"
     = [ set_logic (set_description sample_element (PStr "Элемент text"))
                   (PStr default_logic) ]
  /\ enhance_with_deepseek (fun _ _ => Ok (sample_completion "{}"))
       sample_json_loads [sample_element] "Screen" "key"
     <> map with_fallback [sample_element].
Proof.
  repeat split; try (vm_compute; reflexivity); vm_compute; discriminate.
Qed.

(** C3, amended. On a non-empty list, an exception raised anywhere in
    the [try] block gives every element the fallback description and the
    fallback logic, and nothing of the reply.  That is the case when the
    model call raises, when its reply is not JSON, and when the decoded
    reply cannot be turned into the map from ids to items (it is not
    iterable, an item is not an object with an "id", an id cannot be
    hashed).  A reply from which the map can be built is applied element
    by element. *)
Theorem enhance_falls_back_on_exception
        (deepseek_post : string -> string -> result pyval)
        (json_loads : string -> result pyval)
        (elements : list element) (frame_name api_key : string) :
  elements <> [] ->
  let prompt := prompt_of frame_name (element_summary elements) in
  let enhanced := enhance_with_deepseek deepseek_post json_loads elements frame_name api_key in
  (forall x,
      snd (enhance_try deepseek_post json_loads elements prompt api_key) = Some x ->
      enhanced = map with_fallback elements)
  /\ (forall x,
      call_deepseek_api deepseek_post prompt api_key = Raise x
      \/ (exists reply,
             call_deepseek_api deepseek_post prompt api_key = Ok reply
             /\ json_loads reply = Raise x)
      \/ (exists reply ai_data,
             call_deepseek_api deepseek_post prompt api_key = Ok reply
             /\ json_loads reply = Ok ai_data
             /\ ai_map_of ai_data = Raise x) ->
      enhanced = map with_fallback elements
      /\ Forall (fun e => el_description e = Some (PStr (fallback_description e))
                          /\ el_logic e = Some (PStr fallback_logic)) enhanced)
  /\ (forall reply ai_data ai_map,
         call_deepseek_api deepseek_post prompt api_key = Ok reply ->
         json_loads reply = Ok ai_data ->
         ai_map_of ai_data = Ok ai_map ->
         enhanced = map (fun e => fst (enrich_element ai_map e)) elements).
Proof.
  intros Hne prompt enhanced.
  assert (Hunfold :
    enhanced = match enhance_try deepseek_post json_loads elements prompt api_key with
               | (els, None) => els
               | (els, Some _) => map with_fallback els
               end).
  { unfold enhanced, enhance_with_deepseek. destruct elements; [contradiction | reflexivity]. }
  split; [|split].
  - intros x Hx. rewrite Hunfold.
    pose proof (enhance_try_fallback deepseek_post json_loads elements prompt api_key) as Hf.
    destruct (enhance_try deepseek_post json_loads elements prompt api_key) as [els raised].
    cbn [fst snd] in *. now rewrite Hx.
  - intros x Hx.
    assert (Hraise : enhance_try deepseek_post json_loads elements prompt api_key
                     = (elements, Some x)).
    { unfold enhance_try.
      destruct Hx as [-> | [(reply & -> & Hj) | (reply & ai_data & -> & Hj & Hm)]]; cbn.
      - reflexivity.
      - now rewrite Hj.
      - rewrite Hj. cbn. now rewrite Hm. }
    rewrite Hunfold, Hraise. split; [reflexivity|].
    apply Forall_forall. intros e' (e & <- & _)%in_map_iff. now split.
  - intros reply ai_data ai_map Hc Hj Hm.
    rewrite Hunfold. unfold enhance_try. rewrite Hc. cbn. rewrite Hj. cbn. rewrite Hm.
    rewrite enrich_loop_succeeds; [reflexivity|].
    unfold ai_map_of in Hm. destruct (Py.iter ai_data) as [items|]; [|discriminate].
    now apply (ai_map_of_items_dicts items [] ai_map).
Qed.

(** The model call fails with a connection error. *)
Lemma enhance_falls_back_example :
  let deepseek_post := fun (_ _ : string) => @Raise pyval URLError in
  let elements := [sample_element] in
  let prompt := prompt_of "Screen" (element_summary elements) in
  let enhanced := enhance_with_deepseek deepseek_post sample_json_loads elements "Screen" "key" in
  (forall x,
      snd (enhance_try deepseek_post sample_json_loads elements prompt "key") = Some x ->
      enhanced = map with_fallback elements)
  /\ (forall x,
      call_deepseek_api deepseek_post prompt "key" = Raise x
      \/ (exists reply,
             call_deepseek_api deepseek_post prompt "key" = Ok reply
             /\ sample_json_loads reply = Raise x)
      \/ (exists reply ai_data,
             call_deepseek_api deepseek_post prompt "key" = Ok reply
             /\ sample_json_loads reply = Ok ai_data
             /\ ai_map_of ai_data = Raise x) ->
      enhanced = map with_fallback elements
      /\ Forall (fun e => el_description e = Some (PStr (fallback_description e))
                          /\ el_logic e = Some (PStr fallback_logic)) enhanced)
  /\ (forall reply ai_data ai_map,
         call_deepseek_api deepseek_post prompt "key" = Ok reply ->
         sample_json_loads reply = Ok ai_data ->
         ai_map_of ai_data = Ok ai_map ->
         enhanced = map (fun e => fst (enrich_element ai_map e)) elements).
Proof.
  apply (enhance_falls_back_on_exception
           (fun _ _ => Raise URLError) sample_json_loads [sample_element] "Screen" "key").
  discriminate.
Defined.

(** ** The Markdown renderer *)

Lemma format_value_cell (repr : pyval -> string) (field : option pyval) :
  format_value repr (from_option (PStr "") field) = MarkdownSpec.cell repr field.
Proof. destruct field as [[]|]; reflexivity. Qed.

(** The loop appends one row per element to what was written so far. *)
Lemma render_rows (repr : pyval -> string) (elements : list element) (md : string) :
  fold_left
    (fun md element =>
       let md := md ++ "| " ++ Str.of_Z (el_id element) ++ " | " ++ el_type element
                    ++ " | " ++ el_name element ++ " | " in
       md ++ format_value repr (from_option (PStr "") (el_description element)) ++ " | "
          ++ format_value repr (from_option (PStr "") (el_logic element)) ++ " |"
          ++ Str.newline)
    elements md
  = md ++ MarkdownSpec.rows repr elements.
Proof.
  revert md. induction elements as [|e rest IH]; intro md; cbn [fold_left MarkdownSpec.rows].
  - now rewrite append_nil_r.
  - rewrite IH. unfold MarkdownSpec.row. rewrite !format_value_cell.
    now rewrite !append_assoc.
Qed.

(** C8. The document is a function of the element list and the frame
    name: the heading with the frame name, the fixed header of five
    columns, and one row per element in list order, in which a missing
    description or logic is an empty cell.  For the empty list it is the
    heading and the header alone. *)
Theorem generate_markdown_layout
        (repr : pyval -> string) (elements : list element) (frame_name : string) :
  generate_markdown repr elements frame_name
  = MarkdownSpec.heading frame_name ++ MarkdownSpec.table_header
    ++ MarkdownSpec.rows repr elements
  /\ generate_markdown repr [] frame_name
     = MarkdownSpec.heading frame_name ++ MarkdownSpec.table_header
  /\ (forall e rest,
         MarkdownSpec.rows repr (e :: rest)
         = "| " ++ Str.of_Z (el_id e) ++ " | " ++ el_type e ++ " | " ++ el_name e ++ " | "
           ++ MarkdownSpec.cell repr (el_description e) ++ " | "
           ++ MarkdownSpec.cell repr (el_logic e) ++ " |" ++ Str.newline
           ++ MarkdownSpec.rows repr rest)
  /\ MarkdownSpec.cell repr None = ""
  /\ MarkdownSpec.heading frame_name
     = "# " ++ frame_name ++ " Documentation" ++ Str.newline ++ Str.newline.
Proof.
  assert (H : forall l,
             generate_markdown repr l frame_name
             = MarkdownSpec.heading frame_name ++ MarkdownSpec.table_header
               ++ MarkdownSpec.rows repr l).
  { intros l. unfold generate_markdown. rewrite render_rows.
    unfold MarkdownSpec.heading, MarkdownSpec.table_header.
    now rewrite !append_assoc. }
  split; [apply H|]. split; [rewrite H; cbn [MarkdownSpec.rows]; f_equal; apply append_nil_r|].
  split; [|split; reflexivity].
  intros e rest. cbn [MarkdownSpec.rows]. unfold MarkdownSpec.row.
  now rewrite !append_assoc.
Qed.

(** ** The request handler *)

Section HandlerFacts.

Variable figma_get : string -> string -> result figma_response.
Variable deepseek_post : string -> string -> result pyval.
Variable json_loads : string -> result pyval.
Variable environ : string -> option string.
Variable repr : pyval -> string.
Variable exn_message : exn -> string.

Lemma post_of_try (b : option (option string)) :
  handler figma_get deepseek_post json_loads environ repr exn_message
    {| ev_httpMethod := Some "POST"; ev_body := b |}
  = match handler_try figma_get deepseek_post json_loads environ repr
            {| ev_httpMethod := Some "POST"; ev_body := b |} with
    | Ok r => r
    | Raise e => error_response 500 ("Internal error: " ++ exn_message e)
    end.
Proof. reflexivity. Qed.

Lemma try_of_url (ev : event) (raw : string) (d : list (string * pyval)) (s : string) :
  body_text ev = Ok raw ->
  json_loads raw = Ok (PDict d) ->
  from_option (PStr "") (Py.lookup "figmaUrl" d) = PStr s ->
  Str.is_empty (Str.strip_ws s) = true ->
  handler_try figma_get deepseek_post json_loads environ repr ev
  = Ok (error_response 400 "Figma URL is required").
Proof.
  intros Hb Hj Hu He. unfold handler_try.
  rewrite Hb. cbn [bind]. rewrite Hj. cbn [bind Py.get]. rewrite Hu. cbn [bind].
  now rewrite He.
Qed.

Lemma try_of_bad_url (ev : event) (raw : string) (d : list (string * pyval)) (s : string) :
  body_text ev = Ok raw ->
  json_loads raw = Ok (PDict d) ->
  from_option (PStr "") (Py.lookup "figmaUrl" d) = PStr s ->
  Str.is_empty (Str.strip_ws s) = false ->
  is_blank (fst (parse_figma_url (Str.strip_ws s)))
  || is_blank (snd (parse_figma_url (Str.strip_ws s))) = true ->
  handler_try figma_get deepseek_post json_loads environ repr ev
  = Ok (error_response 400
          "Invalid Figma URL format. Expected: figma.com/file/FILE_KEY/...?node-id=NODE_ID").
Proof.
  intros Hb Hj Hu He Hp. unfold handler_try.
  rewrite Hb. cbn [bind]. rewrite Hj. cbn [bind Py.get]. rewrite Hu. cbn [bind].
  rewrite He. destruct (parse_figma_url (Str.strip_ws s)) as [file_key node_id].
  cbn [fst snd] in Hp. now rewrite Hp.
Qed.

Lemma try_of_bad_body (ev : event) :
  (ev_body ev = Some None ->
   handler_try figma_get deepseek_post json_loads environ repr ev = Raise TypeError)
  /\ (forall raw e,
         body_text ev = Ok raw -> json_loads raw = Raise e ->
         handler_try figma_get deepseek_post json_loads environ repr ev = Raise e)
  /\ (forall raw v,
         body_text ev = Ok raw -> json_loads raw = Ok v -> is_dict v = false ->
         handler_try figma_get deepseek_post json_loads environ repr ev = Raise AttributeError)
  /\ (forall raw d v,
         body_text ev = Ok raw -> json_loads raw = Ok (PDict d) ->
         Py.lookup "figmaUrl" d = Some v -> (forall s, v <> PStr s) ->
         handler_try figma_get deepseek_post json_loads environ repr ev = Raise AttributeError).
Proof.
  unfold handler_try. repeat split.
  - intros Hb. unfold body_text. now rewrite Hb.
  - intros raw e -> Hj. cbn [bind]. now rewrite Hj.
  - intros raw v -> Hj Hv. cbn [bind]. rewrite Hj. cbn [bind].
    destruct v; try reflexivity. discriminate.
  - intros raw d v -> Hj Hl Hv. cbn [bind]. rewrite Hj. cbn [bind Py.get].
    rewrite Hl. cbn [from_option bind].
    destruct v; try reflexivity. now destruct (Hv s).
Qed.

End HandlerFacts.

(** A body that is not JSON is answered with the generic 500, not with
    a 400; so are a body that is null and a body that is the empty text;
    so is a design API that cannot be reached, which is an upstream
    fetch error. *)
Lemma handler_bad_body_is_internal_error :
  handler unreachable_figma sample_deepseek_post sample_json_loads sample_environ
          sample_repr sample_exn_message
          {| ev_httpMethod := Some "POST"; ev_body := Some (Some "figmaUrl=abc") |}
  = error_response 500 "Internal error: Expecting value: line 1 column 1 (char 0)"
  /\ handler unreachable_figma sample_deepseek_post sample_json_loads sample_environ
             sample_repr sample_exn_message
             {| ev_httpMethod := Some "POST"; ev_body := Some (Some sample_request_text) |}
     = error_response 500 "Internal error: <urlopen error>"
  /\ handler unreachable_figma sample_deepseek_post sample_json_loads sample_environ
             sample_repr sample_exn_message
             {| ev_httpMethod := Some "POST"; ev_body := Some None |}
     = error_response 500 ("Internal error: " ++ sample_exn_message TypeError)
  /\ handler unreachable_figma sample_deepseek_post sample_json_loads sample_environ
             sample_repr sample_exn_message
             {| ev_httpMethod := Some "POST"; ev_body := Some (Some "") |}
     = error_response 500 "Internal error: Expecting value: line 1 column 1 (char 0)".
Proof. repeat split; vm_compute; reflexivity. Qed.

(** C9, amended. For a POST request: an event without a body key, or a
    body that is a JSON object whose figmaUrl is missing or blank (empty
    or whitespace only), is answered with 400 and the error "Figma URL
    is required"; a URL that does not give both a file key and a node id
    is answered with 400 and the format error; a body that is null, is
    not JSON (the empty text among others), is not a JSON object, or
    holds a figmaUrl that is not a text raises inside the handler, and
    every exception raised inside the handler is answered with the
    generic 500 "Internal error: ..." response. *)
Theorem handler_post_input_errors
        (figma_get : string -> string -> result figma_response)
        (deepseek_post : string -> string -> result pyval)
        (json_loads : string -> result pyval)
        (environ : string -> option string)
        (repr : pyval -> string) (exn_message : exn -> string)
        (b : option (option string)) :
  let ev := {| ev_httpMethod := Some "POST"; ev_body := b |} in
  let answer := handler figma_get deepseek_post json_loads environ repr exn_message ev in
  let raised e := handler_try figma_get deepseek_post json_loads environ repr ev = Raise e in
  (b = None -> json_loads "{}" = Ok (PDict []) ->
   answer = error_response 400 "Figma URL is required")
  /\ (forall raw d,
         body_text ev = Ok raw -> json_loads raw = Ok (PDict d) ->
         (Py.lookup "figmaUrl" d = None
          \/ exists s, Py.lookup "figmaUrl" d = Some (PStr s) /\ Str.strip_ws s = "") ->
         answer = error_response 400 "Figma URL is required")
  /\ (forall raw d s,
         body_text ev = Ok raw -> json_loads raw = Ok (PDict d) ->
         Py.lookup "figmaUrl" d = Some (PStr s) -> Str.strip_ws s <> "" ->
         (fst (parse_figma_url (Str.strip_ws s)) = None
          \/ snd (parse_figma_url (Str.strip_ws s)) = None) ->
         answer = error_response 400
                    "Invalid Figma URL format. Expected: figma.com/file/FILE_KEY/...?node-id=NODE_ID")
  /\ (forall e, raised e ->
                answer = error_response 500 ("Internal error: " ++ exn_message e))
  /\ (b = Some None -> raised TypeError)
  /\ (forall raw e, b = Some (Some raw) -> json_loads raw = Raise e -> raised e)
  /\ (forall raw v,
         body_text ev = Ok raw -> json_loads raw = Ok v -> is_dict v = false ->
         raised AttributeError)
  /\ (forall raw d v,
         body_text ev = Ok raw -> json_loads raw = Ok (PDict d) ->
         Py.lookup "figmaUrl" d = Some v -> (forall s, v <> PStr s) ->
         raised AttributeError).
Proof.
  intros ev answer raised.
  assert (Hanswer : forall r,
             handler_try figma_get deepseek_post json_loads environ repr ev = Ok r ->
             answer = r).
  { intros r Hr. unfold answer, ev. rewrite post_of_try. fold ev. now rewrite Hr. }
  destruct (try_of_bad_body figma_get deepseek_post json_loads environ repr ev)
    as (Hnull & Hjson & Hobj & Hurl).
  assert (Hblank : forall raw d,
             body_text ev = Ok raw -> json_loads raw = Ok (PDict d) ->
             (Py.lookup "figmaUrl" d = None
              \/ exists s, Py.lookup "figmaUrl" d = Some (PStr s) /\ Str.strip_ws s = "") ->
             answer = error_response 400 "Figma URL is required").
  { intros raw d Hb Hj Hl. apply Hanswer.
    destruct Hl as [Hl | (s & Hl & Hs)].
    - apply (try_of_url _ _ _ _ _ ev raw d ""); auto. now rewrite Hl.
    - apply (try_of_url _ _ _ _ _ ev raw d s); auto; [now rewrite Hl | now rewrite Hs]. }
  repeat split.
  - intros -> Hj. apply (Hblank "{}" []); auto.
  - exact Hblank.
  - intros raw d s Hb Hj Hl Hs Hp. apply Hanswer.
    apply (try_of_bad_url _ _ _ _ _ ev raw d s); auto.
    + now rewrite Hl.
    + destruct (Str.strip_ws s); [contradiction | reflexivity].
    + destruct Hp as [-> | ->]; [reflexivity | apply orb_true_r].
  - intros e He. unfold answer, ev. rewrite post_of_try. fold ev.
    unfold raised in He. now rewrite He.
  - intros ->. now apply Hnull.
  - intros raw e -> Hj. now apply (Hjson raw e).
  - exact Hobj.
  - exact Hurl.
Qed.

(** Whitespace beyond ASCII is stripped as well: a figmaUrl made of
    spaces and a no-break space is blank. *)
Example handler_blank_url_example :
  Str.strip_ws (" " ++ no_break_space ++ " ") = ""
  /\ handler unreachable_figma sample_deepseek_post blank_json_loads sample_environ
             sample_repr sample_exn_message
             {| ev_httpMethod := Some "POST"; ev_body := Some (Some blank_request_text) |}
     = error_response 400 "Figma URL is required".
Proof. split; vm_compute; reflexivity. Qed.

Example handler_missing_url_example :
  handler unreachable_figma sample_deepseek_post sample_json_loads sample_environ
          sample_repr sample_exn_message
          {| ev_httpMethod := Some "POST"; ev_body := None |}
  = error_response 400 "Figma URL is required"
  /\ handler unreachable_figma sample_deepseek_post sample_json_loads sample_environ
             sample_repr sample_exn_message
             {| ev_httpMethod := Some "POST"; ev_body := Some (Some "{}") |}
     = error_response 400 "Figma URL is required".
Proof. split; vm_compute; reflexivity. Qed.

(** * Further properties *)

(** ** Name sanitization *)

Lemma lower_char_lower_word (c : ascii) :
  Str.is_word c = true -> is_lower_word (Str.lower_char c) = true.
Proof. unfold is_lower_word. by_cases_on_char c. Qed.

Lemma lower_lower_word (s : string) :
  Str.forallb Str.is_word s = true ->
  Str.forallb is_lower_word (Str.lower s) = true.
Proof.
  unfold Str.lower. induction s as [|a s IH]; cbn; [reflexivity|].
  intros [Ha Hs]%andb_prop. now rewrite (lower_char_lower_word a Ha), IH.
Qed.

Lemma settled_no_double (b : bool) (s : string) :
  settled b s = true -> Str.contains "__" s = false.
Proof.
  revert b. induction s as [|a s IH]; intros b H; [reflexivity|].
  cbn [settled] in H. cbn [Str.contains Str.starts_with].
  destruct (Ascii.eqb a "_") eqn:Ea.
  - apply andb_prop in H as [_ H]. rewrite (IH true H), orb_false_r.
    rewrite Ascii.eqb_sym, Ea. cbn [andb].
    destruct s as [|a' s]; [reflexivity|]. cbn [settled] in H. cbn [Str.starts_with].
    destruct (Ascii.eqb a' "_") eqn:Ea'; [discriminate|].
    now rewrite Ascii.eqb_sym, Ea'.
  - rewrite (IH false H), orb_false_r. now rewrite Ascii.eqb_sym, Ea.
Qed.

Lemma settled_no_lead (s : string) :
  settled true s = true -> Str.lstrip "_" s = s.
Proof.
  destruct s as [|a s]; cbn; [reflexivity|].
  destruct (Ascii.eqb a "_"); [discriminate | reflexivity].
Qed.

(** The pipeline's result before the fallback, for any name. *)
Lemma pipeline_shape (name : string) :
  let r := Str.lower (Str.strip "_" (re_sub_underscores (re_sub_nonword name))) in
  Str.forallb is_lower_word r = true
  /\ Str.contains "__" r = false
  /\ Str.lstrip "_" r = r
  /\ Str.rstrip "_" r = r.
Proof.
  intros r. set (t := re_sub_underscores (re_sub_nonword name)) in *.
  assert (Hw : Str.forallb Str.is_word t = true)
    by (apply re_sub_runs_word, re_sub_nonword_word).
  assert (Hs : settled false t = true) by apply re_sub_runs_settled.
  assert (Hrs : settled true r = true).
  { unfold r, Str.strip. rewrite lower_settled.
    now apply rstrip_settled, lstrip_settled. }
  repeat split.
  - unfold r, Str.strip. now apply lower_lower_word, rstrip_word, lstrip_word.
  - now apply (settled_no_double true).
  - now apply settled_no_lead.
  - unfold r, Str.strip. now rewrite <- lower_rstrip, rstrip_idem.
Qed.

(** X1. A sanitized name is never empty, is made of lower-case letters,
    digits and underscores only, holds no two adjacent underscores, and
    neither starts nor ends with an underscore. *)
Theorem sanitize_name_shape (name : string) :
  let r := sanitize_name name in
  Str.is_empty r = false
  /\ Str.forallb is_lower_word r = true
  /\ Str.contains "__" r = false
  /\ Str.lstrip "_" r = r
  /\ Str.rstrip "_" r = r.
Proof.
  cbv zeta. unfold sanitize_name.
  destruct (Str.is_empty (Str.lower (Str.strip "_" (re_sub_underscores (re_sub_nonword name)))))
    eqn:E.
  - repeat split; reflexivity.
  - split; [exact E | apply pipeline_shape].
Qed.

Lemma lower_re_sub_nonword (s : string) :
  re_sub_nonword (Str.lower s) = Str.lower (re_sub_nonword s).
Proof.
  unfold re_sub_nonword, Str.lower. induction s as [|a s IH]; cbn; [reflexivity|].
  rewrite IH, lower_char_word. f_equal. destruct (Str.is_word a); reflexivity.
Qed.

Lemma lower_re_sub_runs (b : bool) (s : string) :
  re_sub_runs b (Str.lower s) = Str.lower (re_sub_runs b s).
Proof.
  unfold Str.lower. revert b. induction s as [|a s IH]; intro b; cbn; [reflexivity|].
  rewrite lower_char_underscore.
  destruct (Ascii.eqb a "_") eqn:Ea.
  - destruct b; cbn; now rewrite IH.
  - cbn. now rewrite IH.
Qed.

Lemma sanitize_name_lower (s : string) :
  sanitize_name (Str.lower s) = sanitize_name s.
Proof.
  unfold sanitize_name, re_sub_underscores.
  now rewrite lower_re_sub_nonword, lower_re_sub_runs, <- lower_strip, lower_idem.
Qed.

(** X2. Names that differ only in the case of their ASCII letters get
    the same sanitized name. *)
Theorem sanitize_name_ignores_case (a b : string) :
  Str.lower a = Str.lower b -> sanitize_name a = sanitize_name b.
Proof.
  intros H. now rewrite <- (sanitize_name_lower a), <- (sanitize_name_lower b), H.
Qed.

Lemma sanitize_name_ignores_case_example :
  sanitize_name "Sign-In Button" = sanitize_name "SIGN-IN button".
Proof.
  apply (sanitize_name_ignores_case "Sign-In Button" "SIGN-IN button").
  reflexivity.
Defined.

(** ** The element extractor *)

Lemma discovered_classified (n : node) :
  Forall (fun m => ExtractSpec.classify m <> None) (ExtractSpec.discovered n).
Proof.
  induction n as [type name radius children others IH] using node_induction.
  cbn [ExtractSpec.discovered].
  destruct (ExtractSpec.classify (Node type name radius children others)) eqn:E.
  - constructor; [congruence | constructor].
  - destruct children as [cl|]; [|constructor].
    specialize (IH cl eq_refl). apply Forall_forall.
    intros m (c & Hc & Hm)%in_flat_map.
    rewrite Forall_forall in IH. specialize (IH c Hc).
    rewrite Forall_forall in IH. now apply IH.
Qed.

Lemma numbered_Forall (P : element -> Prop) (k : Z) (l : list node) :
  (forall j m, In m l -> P (ExtractSpec.element_of j m)) ->
  Forall P (ExtractSpec.numbered k l).
Proof.
  revert k. induction l as [|m l IH]; intros k H; cbn; constructor.
  - apply H. now left.
  - apply IH. intros j m' Hm'. apply H. now right.
Qed.

Lemma str_in_In (x : string) (l : list string) : str_in x l = true -> In x l.
Proof.
  unfold str_in. intros (y & Hy & E)%existsb_exists.
  apply String.eqb_eq in E. now subst y.
Qed.

(** X3. Every extracted element carries the sanitized form of its raw
    name, has no description and no logic yet, and pairs its classified
    type with the node type it came from: text with TEXT, button and
    card with RECTANGLE, icon with one of the five vector types. *)
Theorem extracted_elements_well_formed (n : node) :
  Forall (fun e =>
            el_name e = sanitize_name (el_raw_name e)
            /\ el_description e = None
            /\ el_logic e = None
            /\ ((el_type e = "text" /\ el_figma_type e = "TEXT")
                \/ ((el_type e = "button" \/ el_type e = "card")
                    /\ el_figma_type e = "RECTANGLE")
                \/ (el_type e = "icon"
                    /\ In (el_figma_type e)
                          ["VECTOR"; "BOOLEAN_OPERATION"; "STAR"; "LINE"; "ELLIPSE"])))
         (extract_ui_elements_default n).
Proof.
  unfold extract_ui_elements_default. rewrite extract_ui_elements_discovered.
  cbn [fst app]. apply numbered_Forall. intros j m Hm.
  pose proof (discovered_classified n) as Hc. rewrite Forall_forall in Hc.
  specialize (Hc m Hm).
  unfold ExtractSpec.element_of. cbn [el_name el_raw_name el_description el_logic
                                      el_type el_figma_type].
  repeat split. revert Hc. unfold ExtractSpec.classify.
  destruct (String.eqb (from_option "" (node_type m)) "TEXT") eqn:Et.
  { intros _. left. apply String.eqb_eq in Et. now split. }
  destruct (String.eqb (from_option "" (node_type m)) "RECTANGLE") eqn:Er.
  { intros _. right. left. apply String.eqb_eq in Er. split; [|exact Er].
    cbn. destruct (is_button_like m); [now left | now right]. }
  destruct (str_in (from_option "" (node_type m)) _) eqn:Ei.
  { intros _. right. right. split; [reflexivity | now apply str_in_In]. }
  intros H. now contradiction H.
Qed.

(** X4. Called on a list and a counter, the extractor leaves the
    elements it was given where they are, appends the elements it would
    produce on an empty list, numbers them upward from the counter, and
    leaves the counter advanced by their number. *)
Theorem extract_ui_elements_appends (n : node) (elements : list element) (counter : Z) :
  let added := fst (extract_ui_elements n [] counter) in
  extract_ui_elements n elements counter
  = ((elements ++ added)%list, counter + Z.of_nat (length added))
  /\ map el_id added = map (fun i => counter + Z.of_nat i) (seq 0 (length added)).
Proof.
  cbv zeta. rewrite !extract_ui_elements_discovered. cbn [fst app].
  rewrite numbered_length. split; [reflexivity|].
  now rewrite numbered_ids.
Qed.

Lemma numbered_ids_from (k i : Z) (l : list node) :
  In i (map el_id (ExtractSpec.numbered k l)) -> k <= i.
Proof.
  revert k. induction l as [|m l IH]; intros k; cbn; [intros []|].
  intros [<-|H]; [lia|]. apply IH in H. lia.
Qed.

(** X5. No two extracted elements have the same id. *)
Theorem extracted_ids_distinct (n : node) :
  NoDup (map el_id (extract_ui_elements_default n)).
Proof.
  unfold extract_ui_elements_default. rewrite extract_ui_elements_discovered.
  cbn [fst app]. generalize 1. generalize (ExtractSpec.discovered n).
  induction l as [|m l IH]; intros k; cbn; constructor.
  - intros H. apply numbered_ids_from in H. lia.
  - apply IH.
Qed.

(** X6. The children of a node that is itself emitted are never looked
    at: with other children in their place the extractor does the
    same. *)
Theorem emitted_node_hides_children
        (type name : option string) (radius : option Q)
        (children children' : option (list node)) (others others' : list string)
        (elements : list element) (counter : Z) :
  ExtractSpec.classify (Node type name radius children others) <> None ->
  extract_ui_elements (Node type name radius children others) elements counter
  = extract_ui_elements (Node type name radius children' others') elements counter.
Proof.
  intros H. rewrite !extract_ui_elements_discovered.
  cbn [ExtractSpec.discovered].
  assert (E : ExtractSpec.classify (Node type name radius children' others')
              = ExtractSpec.classify (Node type name radius children others))
    by reflexivity.
  rewrite E. destruct (ExtractSpec.classify (Node type name radius children others)) eqn:Ec;
    [|contradiction].
  cbn [ExtractSpec.numbered length]. unfold ExtractSpec.element_of. rewrite E, Ec.
  reflexivity.
Qed.

Lemma emitted_node_hides_children_example :
  extract_ui_elements
    (Node (Some "BOOLEAN_OPERATION") (Some "Union") None
          (Some [Node (Some "RECTANGLE") (Some "Left") None None [];
                 Node (Some "ELLIPSE") (Some "Right") None None []]) ["id"]) [] 1
  = extract_ui_elements (Node (Some "BOOLEAN_OPERATION") (Some "Union") None None []) [] 1.
Proof.
  apply (emitted_node_hides_children (Some "BOOLEAN_OPERATION") (Some "Union") None).
  discriminate.
Defined.

Lemma subsequence_In {A : Type} (l m : list A) (x : A) :
  ExtractSpec.subsequence l m -> In x l -> In x m.
Proof.
  induction 1 as [|y l m _ IH|y l m _ IH]; cbn; [auto | auto |].
  intros [->|H]; [now left | right; auto].
Qed.

(** X7. A tree without any text, rectangle or vector node gives the
    empty list, whatever its shape. *)
Theorem extract_nothing_to_emit (n : node) :
  (forall m, In m (ExtractSpec.preorder n) -> ExtractSpec.classify m = None) ->
  extract_ui_elements_default n = [].
Proof.
  intros H. unfold extract_ui_elements_default.
  rewrite extract_ui_elements_discovered. cbn [fst app].
  pose proof (discovered_classified n) as Hc.
  pose proof (discovered_in_preorder n) as Hs.
  destruct (ExtractSpec.discovered n) as [|m l]; [reflexivity|].
  exfalso. inversion Hc as [|? ? Hm _]; subst. apply Hm, H.
  apply (subsequence_In _ _ m Hs). now left.
Qed.

Lemma extract_nothing_to_emit_example :
  extract_ui_elements_default
    (Node (Some "FRAME") (Some "Page") None
          (Some [Node (Some "GROUP") None None (Some []) [];
                 Node (Some "SECTION") (Some "Notes") None
                      (Some [Node (Some "COMPONENT") None None None []]) []]) [])
  = [].
Proof.
  apply extract_nothing_to_emit.
  intros m H. cbn in H.
  repeat (destruct H as [<-|H]; [reflexivity|]). destruct H.
Defined.

(** ** The URL parser *)

Lemma re_search_group (literals : list string) (class : ascii -> bool) (url k : string) :
  re_search (match_any literals class) url = Some k ->
  Str.is_empty k = false /\ Str.forallb class k = true.
Proof.
  intros H. apply re_search_some in H.
  destruct H as (before & s & _ & (lit & rest & _ & _ & Hk & Hc & _) & _).
  split; [|exact Hc]. destruct k; [contradiction | reflexivity].
Qed.

Lemma contains_char_cons (c a : ascii) (s : string) :
  Str.contains (String c "") (String a s)
  = Ascii.eqb c a || Str.contains (String c "") s.
Proof. cbn [Str.contains Str.starts_with]. now rewrite andb_true_r. Qed.

Lemma contains_char_nil (c : ascii) : Str.contains (String c "") "" = false.
Proof. reflexivity. Qed.

Lemma replace_hyphens (run : string) :
  Str.forallb Str.is_node_id_char run = true ->
  Str.forallb is_lookup_id_char (Str.replace "-" ":" run) = true
  /\ Str.contains "-" (Str.replace "-" ":" run) = false.
Proof.
  unfold Str.replace. induction run as [|a run IH]; [split; reflexivity|].
  intros [Ha Hr]%andb_prop. destruct (IH Hr) as [IH1 IH2].
  cbn [Str.map Str.forallb]. rewrite IH1, contains_char_cons, IH2.
  split.
  - rewrite andb_true_r. revert Ha. unfold is_lookup_id_char. by_cases_on_char a.
  - rewrite orb_false_r. revert Ha. by_cases_on_char a.
Qed.

(** X8. A file key that the parser returns is a non-empty run of letters
    and digits; a node id that it returns is non-empty, is made of
    digits, percent signs and colons, and holds no hyphen.  So the
    handler's test for a blank key or id is a test for an absent one. *)
Theorem parse_figma_url_results (url : string) :
  match fst (parse_figma_url url) with
  | Some file_key =>
      Str.is_empty file_key = false /\ Str.forallb Str.is_alnum file_key = true
  | None => True
  end
  /\ match snd (parse_figma_url url) with
     | Some node_id =>
         Str.is_empty node_id = false
         /\ Str.forallb is_lookup_id_char node_id = true
         /\ Str.contains "-" node_id = false
     | None => True
     end
  /\ (is_blank (fst (parse_figma_url url)) = true <-> fst (parse_figma_url url) = None)
  /\ (is_blank (snd (parse_figma_url url)) = true <-> snd (parse_figma_url url) = None).
Proof.
  unfold parse_figma_url. cbn [fst snd].
  destruct (re_search (match_any file_key_literals Str.is_alnum) url) as [k|] eqn:Ek;
    destruct (re_search (match_any node_id_literals Str.is_node_id_char) url) as [run|] eqn:Er;
    cbn [option_map is_blank].
  all: try (apply re_search_group in Ek; destruct Ek as [Ek1 Ek2]).
  all: try (apply re_search_group in Er; destruct Er as [Er1 Er2];
            destruct (replace_hyphens run Er2) as [Hr1 Hr2];
            assert (Hr0 : Str.is_empty (Str.replace "-" ":" run) = false)
              by (unfold Str.replace; now rewrite map_is_empty)).
  all: repeat split; auto; try congruence; try discriminate.
Qed.

(** ** The node fetcher *)

(** X9. A non-empty mapping returned by the fetcher is the document that
    the answer holds under exactly the requested node id. *)
Theorem fetch_figma_node_provenance
        (figma_get : string -> string -> result figma_response)
        (file_key node_id token : string) (document : node) :
  fetch_figma_node figma_get file_key node_id token = Ok document ->
  document <> empty_node ->
  exists data entry,
    figma_get ("https://api.figma.com/v1/files/" ++ file_key ++ "/nodes?ids=" ++ node_id)
              token = Ok data
    /\ Py.lookup node_id (from_option [] (resp_nodes data)) = Some (Some entry)
    /\ entry_document entry = Some document.
Proof.
  unfold fetch_figma_node. intros H Hne.
  destruct (figma_get _ token) as [data|e].
  - exists data.
    destruct (Py.lookup node_id (from_option [] (resp_nodes data))) as [[entry|]|];
      cbn [from_option] in H.
    + exists entry. repeat split.
      destruct (entry_document entry) as [d|]; cbn in H; injection H as H; congruence.
    + discriminate.
    + cbn in H. injection H as H. congruence.
  - destruct e; try discriminate. injection H as H. congruence.
Qed.

Lemma fetch_figma_node_provenance_example :
  exists data entry,
    sample_figma_get ("https://api.figma.com/v1/files/" ++ "ABC123" ++ "/nodes?ids=" ++ "1:2")
                     "token" = Ok data
    /\ Py.lookup "1:2" (from_option [] (resp_nodes data)) = Some (Some entry)
    /\ entry_document entry = Some sample_document.
Proof.
  apply (fetch_figma_node_provenance sample_figma_get "ABC123" "1:2" "token" sample_document).
  - reflexivity.
  - discriminate.
Defined.

(** X10. The fetcher raises in two cases only: the call raised
    something other than an HTTP error, which is passed on, or the
    answer holds null under the node id, which is an attribute error. *)
Theorem fetch_figma_node_raises
        (figma_get : string -> string -> result figma_response)
        (file_key node_id token : string) (e : exn) :
  let url := "https://api.figma.com/v1/files/" ++ file_key ++ "/nodes?ids=" ++ node_id in
  fetch_figma_node figma_get file_key node_id token = Raise e
  <-> ((figma_get url token = Raise e /\ forall code, e <> HTTPError code)
       \/ (e = AttributeError
           /\ exists data,
               figma_get url token = Ok data
               /\ Py.lookup node_id (from_option [] (resp_nodes data)) = Some None)).
Proof.
  intros url. unfold fetch_figma_node. fold url.
  destruct (figma_get url token) as [data|x].
  - destruct (Py.lookup node_id (from_option [] (resp_nodes data))) as [[entry|]|] eqn:El;
      cbn [from_option]; split.
    + discriminate.
    + intros [[H _] | (_ & d & H & Hl)]; [discriminate|].
      injection H as <-. congruence.
    + intros H. injection H as <-. right. split; [reflexivity|]. now exists data.
    + intros [[H _] | (-> & _)]; [discriminate | reflexivity].
    + discriminate.
    + intros [[H _] | (_ & d & H & Hl)]; [discriminate|].
      injection H as <-. congruence.
  - split.
    + intros H. left. destruct x; try discriminate; injection H as <-;
        (split; [reflexivity | discriminate]).
    + intros [[H Hne] | (_ & d & H & _)]; [|discriminate].
      injection H as ->. destruct e; try reflexivity. now destruct (Hne code).
Qed.

(** ** The completion call *)

Lemma through_last_bracket_none (s : string) :
  Str.contains "]" s = false -> through_last_bracket s = None.
Proof.
  induction s as [|a s IH]; [reflexivity|].
  rewrite contains_char_cons. intros [Ha Hs]%orb_false_elim.
  cbn [through_last_bracket]. rewrite (IH Hs).
  now rewrite Ascii.eqb_sym, Ha.
Qed.

Lemma through_last_bracket_append (mid rest : string) :
  Str.contains "]" rest = false ->
  through_last_bracket (mid ++ "]" ++ rest) = Some (mid ++ "]").
Proof.
  intros H. induction mid as [|a mid IH].
  - cbn. now rewrite (through_last_bracket_none rest H).
  - cbn [String.append through_last_bracket]. cbn [String.append] in IH.
    now rewrite IH.
Qed.

(** X11. Prose around the array is dropped: for a text that holds an
    opening bracket after a bracket-free beginning and a closing bracket
    before a bracket-free end, the search returns the text from the one
    to the other. *)
Theorem search_array_strips_prose (before mid after : string) :
  Str.contains "[" before = false ->
  Str.contains "]" after = false ->
  search_array (before ++ "[" ++ mid ++ "]" ++ after) = Some ("[" ++ mid ++ "]").
Proof.
  intros Hb Ha. induction before as [|a before IH].
  - cbn [String.append search_array]. cbn [Ascii.eqb Bool.eqb].
    cbn [String.append]. pose proof (through_last_bracket_append mid after Ha) as H.
    cbn [String.append] in H. now rewrite H.
  - rewrite contains_char_cons in Hb. apply orb_false_elim in Hb as [Hc Hb].
    cbn [String.append search_array]. rewrite Ascii.eqb_sym, Hc. now apply IH.
Qed.

Lemma search_array_strips_prose_example :
  search_array ("Here is the JSON: " ++ "[" ++ "{}, {}" ++ "]" ++ " Hope it helps!")
  = Some ("[" ++ "{}, {}" ++ "]").
Proof.
  apply (search_array_strips_prose "Here is the JSON: " "{}, {}" " Hope it helps!");
    reflexivity.
Defined.

Ltac case_on_match :=
  match goal with
  | H : context [match ?x with _ => _ end] |- _ => destruct x eqn:?
  end.

(** X12. The completion call returns a text exactly when the decoded
    response is an object whose "choices" is a list that starts with an
    object whose "message" is an object whose "content" is a text; the
    text returned is the array found in the content, or the content
    itself when it holds none. *)
Theorem call_deepseek_api_returns
        (deepseek_post : string -> string -> result pyval)
        (prompt api_key reply : string) :
  call_deepseek_api deepseek_post prompt api_key = Ok reply
  <-> exists d c rest m content,
      deepseek_post prompt api_key = Ok (PDict d)
      /\ Py.lookup "choices" d = Some (PList (PDict c :: rest))
      /\ Py.lookup "message" c = Some (PDict m)
      /\ Py.lookup "content" m = Some (PStr content)
      /\ reply = from_option content (search_array content).
Proof.
  unfold call_deepseek_api. split.
  - intros H. unfold bind, Py.getitem, Py.first in H.
    repeat (case_on_match; try discriminate).
    all: injection H as <-.
    all: repeat match goal with E : Ok _ = Ok _ |- _ => injection E as E end; subst.
    all: do 5 eexists; repeat split; try eassumption; cbn [from_option].
    all: match goal with E : search_array _ = _ |- _ => now rewrite E end.
  - intros (d & c & rest & m & content & -> & Hc & Hm & Ht & ->).
    cbn [bind Py.getitem]. rewrite Hc. cbn [bind Py.first Py.getitem]. rewrite Hm.
    cbn [bind Py.getitem]. rewrite Ht. cbn [bind].
    destruct (search_array content); reflexivity.
Qed.

(** ** The description enricher *)

Lemma raised_call_falls_back
      (deepseek_post : string -> string -> result pyval)
      (json_loads : string -> result pyval)
      (elements : list element) (frame_name api_key : string) (x : exn) :
  elements <> [] ->
  call_deepseek_api deepseek_post (prompt_of frame_name (element_summary elements)) api_key
  = Raise x ->
  enhance_with_deepseek deepseek_post json_loads elements frame_name api_key
  = map with_fallback elements.
Proof.
  intros Hne Hc. unfold enhance_with_deepseek, enhance_try.
  destruct elements as [|e rest]; [contradiction|]. now rewrite Hc.
Qed.

(** X13. A completion response without "choices", as an error payload
    is, or with an empty list of choices gives every element the
    fallback texts. *)
Theorem completion_without_choices_falls_back
        (deepseek_post : string -> string -> result pyval)
        (json_loads : string -> result pyval)
        (elements : list element) (frame_name api_key : string)
        (d : list (string * pyval)) :
  elements <> [] ->
  deepseek_post (prompt_of frame_name (element_summary elements)) api_key = Ok (PDict d) ->
  Py.lookup "choices" d = None \/ Py.lookup "choices" d = Some (PList []) ->
  enhance_with_deepseek deepseek_post json_loads elements frame_name api_key
  = map with_fallback elements.
Proof.
  intros Hne Hp Hc.
  destruct Hc as [Hc|Hc].
  - apply (raised_call_falls_back _ _ _ _ _ KeyError Hne).
    unfold call_deepseek_api. rewrite Hp. cbn [bind Py.getitem]. now rewrite Hc.
  - apply (raised_call_falls_back _ _ _ _ _ IndexError Hne).
    unfold call_deepseek_api. rewrite Hp. cbn [bind Py.getitem]. now rewrite Hc.
Qed.

Lemma completion_without_choices_example :
  enhance_with_deepseek
    (fun _ _ => Ok (PDict [("error", PDict [("message", PStr "Invalid API key")])]))
    sample_json_loads [sample_element] "Screen" "key"
  = map with_fallback [sample_element].
Proof.
  apply (completion_without_choices_falls_back
           (fun _ _ => Ok (PDict [("error", PDict [("message", PStr "Invalid API key")])]))
           sample_json_loads [sample_element] "Screen" "key"
           [("error", PDict [("message", PStr "Invalid API key")])]).
  - discriminate.
  - reflexivity.
  - left. reflexivity.
Defined.

(** *** What the enricher keeps and what it sets *)

Lemma enrich_element_core (m : list (pyval * pyval)) (e : element) :
  element_core (fst (enrich_element m e)) = element_core e.
Proof.
  unfold enrich_element.
  destruct (Py.get _ "description" _); [|reflexivity].
  destruct (Py.get _ "logic" _); reflexivity.
Qed.

Lemma enrich_loop_core (m : list (pyval * pyval)) (elements : list element) :
  map element_core (fst (enrich_loop m elements)) = map element_core elements.
Proof.
  induction elements as [|e rest IH]; [reflexivity|].
  cbn [enrich_loop]. pose proof (enrich_element_core m e) as He.
  destruct (enrich_element m e) as [e' [x|]]; cbn [fst] in He.
  - cbn. now rewrite He.
  - destruct (enrich_loop m rest) as [rest' raised]. cbn in *. now rewrite He, IH.
Qed.

Lemma enhance_try_core
      (deepseek_post : string -> string -> result pyval)
      (json_loads : string -> result pyval)
      (elements : list element) (prompt api_key : string) :
  map element_core (fst (enhance_try deepseek_post json_loads elements prompt api_key))
  = map element_core elements.
Proof.
  unfold enhance_try. destruct (bind _ _); [apply enrich_loop_core | reflexivity].
Qed.

Lemma enhance_core
      (deepseek_post : string -> string -> result pyval)
      (json_loads : string -> result pyval)
      (elements : list element) (frame_name api_key : string) :
  map element_core
      (enhance_with_deepseek deepseek_post json_loads elements frame_name api_key)
  = map element_core elements.
Proof.
  unfold enhance_with_deepseek. destruct elements as [|e rest]; [reflexivity|].
  pose proof (enhance_try_core deepseek_post json_loads (e :: rest)
                (prompt_of frame_name (element_summary (e :: rest))) api_key) as Hc.
  destruct (enhance_try _ _ _ _ _) as [els [x|]]; cbn [fst] in Hc.
  - rewrite map_map. rewrite <- Hc. now apply map_ext.
  - exact Hc.
Qed.

Lemma enhance_length
      (deepseek_post : string -> string -> result pyval)
      (json_loads : string -> result pyval)
      (elements : list element) (frame_name api_key : string) :
  length (enhance_with_deepseek deepseek_post json_loads elements frame_name api_key)
  = length elements.
Proof.
  pose proof (enhance_core deepseek_post json_loads elements frame_name api_key) as H.
  apply (f_equal (@length _)) in H. now rewrite !length_map in H.
Qed.

(** X14. Whatever the model call and the reader do, the enricher
    returns as many elements as it was given, in the same order, each
    with the id, type, name, raw name and node type it had. *)
Theorem enhance_keeps_elements
        (deepseek_post : string -> string -> result pyval)
        (json_loads : string -> result pyval)
        (elements : list element) (frame_name api_key : string) :
  let enhanced := enhance_with_deepseek deepseek_post json_loads elements frame_name api_key in
  map element_core enhanced = map element_core elements
  /\ length enhanced = length elements.
Proof.
  cbv zeta. split; [apply enhance_core | apply enhance_length].
Qed.

Lemma enrich_element_sets_both (m : list (pyval * pyval)) (e e' : element) :
  enrich_element m e = (e', None) -> has_both_texts e' = true.
Proof.
  unfold enrich_element.
  destruct (Py.get _ "description" _) as [d|x]; [|discriminate].
  destruct (Py.get _ "logic" _) as [l|x]; [|discriminate].
  intros H. injection H as <-. reflexivity.
Qed.

Lemma enrich_loop_sets_both (m : list (pyval * pyval)) (elements : list element) :
  snd (enrich_loop m elements) = None ->
  forallb has_both_texts (fst (enrich_loop m elements)) = true.
Proof.
  induction elements as [|e rest IH]; [reflexivity|].
  cbn [enrich_loop].
  destruct (enrich_element m e) as [e' [x|]] eqn:Ee; [discriminate|].
  destruct (enrich_loop m rest) as [rest' raised]. cbn in *.
  intros ->. now rewrite (enrich_element_sets_both m e e' Ee), IH.
Qed.

(** X15. After the enricher, every element has a description and a
    logic text, on every path. *)
Theorem enhance_sets_both_texts
        (deepseek_post : string -> string -> result pyval)
        (json_loads : string -> result pyval)
        (elements : list element) (frame_name api_key : string) :
  forallb has_both_texts
    (enhance_with_deepseek deepseek_post json_loads elements frame_name api_key) = true.
Proof.
  unfold enhance_with_deepseek.
  destruct elements as [|e rest]; [reflexivity|].
  set (prompt := prompt_of frame_name (element_summary (e :: rest))).
  destruct (enhance_try deepseek_post json_loads (e :: rest) prompt api_key)
    as [els [x|]] eqn:E.
  - clear E. induction els as [|e' els IH]; [reflexivity|]. cbn. exact IH.
  - unfold enhance_try in E. destruct (bind _ _) as [m|x]; [|discriminate].
    pose proof (enrich_loop_sets_both m (e :: rest)) as H.
    rewrite E in H. now apply H.
Qed.

(** *** The map from ids to reply items *)

Lemma Qeq_bool_sym (x y : Q) : Qeq_bool x y = Qeq_bool y x.
Proof.
  destruct (Qeq_bool x y) eqn:E1, (Qeq_bool y x) eqn:E2; try reflexivity.
  - apply Qeq_bool_iff, Qeq_sym, Qeq_bool_iff in E1. congruence.
  - apply Qeq_bool_iff, Qeq_sym, Qeq_bool_iff in E2. congruence.
Qed.

Lemma Qeq_bool_trans (x y z : Q) :
  Qeq_bool x y = true -> Qeq_bool y z = true -> Qeq_bool x z = true.
Proof.
  rewrite !Qeq_bool_iff. apply Qeq_trans.
Qed.

Lemma py_eqb_sym (a b : pyval) : Py.eqb a b = Py.eqb b a.
Proof.
  unfold Py.eqb.
  destruct (Py.number a) eqn:Ea, (Py.number b) eqn:Eb; try reflexivity.
  - apply Qeq_bool_sym.
  - destruct a, b; try reflexivity; try discriminate. apply String.eqb_sym.
Qed.

Lemma py_eqb_trans (a b c : pyval) :
  Py.eqb a b = true -> Py.eqb b c = true -> Py.eqb a c = true.
Proof.
  unfold Py.eqb.
  destruct (Py.number a) eqn:Ea, (Py.number b) eqn:Eb, (Py.number c) eqn:Ec;
    try discriminate.
  - apply Qeq_bool_trans.
  - destruct a, b, c; try discriminate; try reflexivity.
    intros H1%String.eqb_eq H2%String.eqb_eq. subst. apply String.eqb_refl.
Qed.

Lemma py_eqb_left (k k' key : pyval) :
  Py.eqb k k' = true -> Py.eqb k key = Py.eqb k' key.
Proof.
  intros H. destruct (Py.eqb k' key) eqn:E.
  - now apply (py_eqb_trans k k' key).
  - destruct (Py.eqb k key) eqn:E'; [|reflexivity].
    rewrite py_eqb_sym in H. now rewrite (py_eqb_trans k' k key H E') in E.
Qed.

(** Reading a key after writing one: the written value under every key
    equal to the written key, the former value under the others. *)
Lemma getkey_setitem (m : list (pyval * pyval)) (k v key : pyval) :
  Py.getkey (Py.setitem m k v) key
  = if Py.eqb k key then Some v else Py.getkey m key.
Proof.
  induction m as [|[k0 v0] m IH]; cbn [Py.setitem Py.getkey]; [reflexivity|].
  destruct (Py.eqb k0 k) eqn:E0; cbn [Py.getkey].
  - rewrite (py_eqb_left k0 k key E0). destruct (Py.eqb k key); reflexivity.
  - rewrite IH. destruct (Py.eqb k0 key) eqn:E1; [|reflexivity].
    destruct (Py.eqb k key) eqn:E2; [|reflexivity].
    rewrite py_eqb_sym in E2. now rewrite (py_eqb_trans k0 key k E1 E2) in E0.
Qed.

Lemma ai_map_of_items_indexable (items : list pyval) (m : list (pyval * pyval)) :
  forallb indexable items = true ->
  exists m',
    ai_map_of_items items m = Ok m'
    /\ forall key,
        Py.getkey m' key
        = match last_with_id key items with
          | Some item => Some item
          | None => Py.getkey m key
          end.
Proof.
  revert m. induction items as [|item items IH]; intros m H.
  - exists m. split; reflexivity.
  - cbn [forallb] in H. apply andb_prop in H as [Hi H].
    destruct item as [| | | | |l|d]; try discriminate. cbn [indexable] in Hi.
    destruct (Py.lookup "id" d) as [k|] eqn:Ek; [|discriminate].
    destruct (IH (Py.setitem m k (PDict d)) H) as (m' & Hm' & Hget).
    exists m'. split.
    + cbn [ai_map_of_items Py.getitem]. rewrite Ek. cbn [bind]. now rewrite Hi.
    + intros key. rewrite Hget, getkey_setitem. cbn [last_with_id has_id]. rewrite Ek.
      destruct (last_with_id key items); [reflexivity|].
      destruct (Py.eqb k key); reflexivity.
Qed.

Lemma last_with_id_dict (key : pyval) (items : list pyval) (item : pyval) :
  last_with_id key items = Some item -> is_dict item = true.
Proof.
  induction items as [|i items IH]; cbn; [discriminate|].
  destruct (last_with_id key items); [exact IH|].
  destruct (has_id key i) eqn:E; [|discriminate].
  intros H. injection H as <-. destruct i; try discriminate. reflexivity.
Qed.

(** X16. When the reply is a list of objects that each hold a hashable
    "id", every element gets its two texts from the last item of the
    reply whose id equals the element's id as numbers compare (an item
    with id 1.0 is an item for element 1): the item's description and
    logic where it has them, the default text where it does not, and
    both defaults when no item has the id. *)
Theorem enhance_applies_reply
        (deepseek_post : string -> string -> result pyval)
        (json_loads : string -> result pyval)
        (elements : list element) (frame_name api_key reply : string)
        (items : list pyval) :
  elements <> [] ->
  call_deepseek_api deepseek_post (prompt_of frame_name (element_summary elements)) api_key
  = Ok reply ->
  json_loads reply = Ok (PList items) ->
  forallb indexable items = true ->
  enhance_with_deepseek deepseek_post json_loads elements frame_name api_key
  = map (apply_reply items) elements.
Proof.
  intros Hne Hc Hj Hi.
  destruct (ai_map_of_items_indexable items [] Hi) as (m & Hm & Hget).
  assert (Hd : forallb (fun kv => is_dict (snd kv)) m = true)
    by now apply (ai_map_of_items_dicts items [] m).
  unfold enhance_with_deepseek. destruct elements as [|e0 rest]; [contradiction|].
  unfold enhance_try. rewrite Hc. cbn [bind]. rewrite Hj. cbn [bind ai_map_of Py.iter].
  rewrite Hm, (enrich_loop_succeeds m _ Hd).
  apply map_ext. intros e. unfold enrich_element, apply_reply.
  rewrite Hget. cbn [Py.getkey].
  destruct (last_with_id (PInt (el_id e)) items) as [item|] eqn:El; cbn [from_option].
  - apply last_with_id_dict in El. destruct item; try discriminate. reflexivity.
  - reflexivity.
Qed.

(** The second item replaces the first as a whole: its description is
    used, and the logic is the default, not the first item's. *)
Example apply_repeated_reply :
  apply_reply repeated_reply sample_element
  = set_logic (set_description sample_element (PStr "Second")) (PStr default_logic).
Proof. reflexivity. Qed.

Lemma enhance_applies_reply_example :
  enhance_with_deepseek (fun _ _ => Ok (sample_completion repeated_reply_text))
    repeated_json_loads [sample_element] "Screen" "key"
  = map (apply_reply repeated_reply) [sample_element].
Proof.
  apply (enhance_applies_reply (fun _ _ => Ok (sample_completion repeated_reply_text))
           repeated_json_loads [sample_element] "Screen" "key" repeated_reply_text
           repeated_reply).
  - discriminate.
  - vm_compute. reflexivity.
  - reflexivity.
  - reflexivity.
Defined.

(** ** The Markdown renderer *)

Lemma count_char_append (c : ascii) (a b : string) :
  count_char c (a ++ b) = (count_char c a + count_char c b)%nat.
Proof. induction a as [|x a IH]; cbn; [reflexivity | rewrite IH; lia]. Qed.

Lemma count_char_uint (c : ascii) (u : Decimal.uint) :
  Str.is_digit c = false -> count_char c (NilEmpty.string_of_uint u) = 0%nat.
Proof.
  intros Hc. induction u; cbn [NilEmpty.string_of_uint count_char]; try reflexivity.
  all: rewrite IHu; clear IHu; revert Hc; by_cases_on_char c.
Qed.

(** A decimal numeral holds digits and at most a sign. *)
Lemma count_char_of_Z (c : ascii) (n : Z) :
  Str.is_digit c = false -> Ascii.eqb "-" c = false ->
  count_char c (Str.of_Z n) = 0%nat.
Proof.
  intros Hd Hm. unfold Str.of_Z, NilZero.string_of_int.
  destruct (Z.to_int n) as [u|u]; cbn [count_char]; rewrite ?Hm;
    unfold NilZero.string_of_uint.
  - destruct u; try apply (count_char_uint c _ Hd).
    clear Hm. revert Hd. by_cases_on_char c.
  - destruct u; try (cbn [Nat.add]; apply (count_char_uint c _ Hd)).
    clear Hm. revert Hd. by_cases_on_char c.
Qed.

Lemma count_char_row (c : ascii) (repr : pyval -> string) (e : element) :
  Str.is_digit c = false -> Ascii.eqb "-" c = false ->
  count_char c (MarkdownSpec.row repr e)
  = (count_char c ("|  |  |  |  |  |" ++ Str.newline) + count_in_fields c repr e)%nat.
Proof.
  intros Hd Hm. unfold MarkdownSpec.row, count_in_fields.
  rewrite !count_char_append, (count_char_of_Z c _ Hd Hm).
  cbn [count_char Str.newline]. lia.
Qed.

Lemma count_char_rows (c : ascii) (repr : pyval -> string) (l : list element) :
  Str.is_digit c = false -> Ascii.eqb "-" c = false ->
  count_char c (MarkdownSpec.rows repr l)
  = (length l * count_char c ("|  |  |  |  |  |" ++ Str.newline)
     + count_in_all_fields c repr l)%nat.
Proof.
  intros Hd Hm. induction l as [|e l IH]; [reflexivity|].
  cbn [MarkdownSpec.rows length count_in_all_fields].
  rewrite count_char_append, IH, (count_char_row c repr e Hd Hm). lia.
Qed.

Lemma count_char_document (c : ascii) (repr : pyval -> string)
      (elements : list element) (frame_name : string) :
  Str.is_digit c = false -> Ascii.eqb "-" c = false ->
  count_char c (generate_markdown repr elements frame_name)
  = (count_char c (MarkdownSpec.heading "") + count_char c frame_name
     + count_char c MarkdownSpec.table_header
     + length elements * count_char c ("|  |  |  |  |  |" ++ Str.newline)
     + count_in_all_fields c repr elements)%nat.
Proof.
  intros Hd Hm. unfold generate_markdown. rewrite render_rows.
  unfold MarkdownSpec.heading, MarkdownSpec.table_header.
  rewrite count_char_append, (count_char_rows c repr elements Hd Hm).
  rewrite !count_char_append.
  change (count_char c "") with 0%nat. lia.
Qed.

(** X17. When neither the frame name nor any text of an element holds a
    line break, the document has four line breaks for the heading, the
    blank line and the two header lines, and one per element. *)
Theorem markdown_line_count
        (repr : pyval -> string) (elements : list element) (frame_name : string) :
  count_char newline_char frame_name = 0%nat ->
  count_in_all_fields newline_char repr elements = 0%nat ->
  count_char newline_char (generate_markdown repr elements frame_name)
  = (4 + length elements)%nat.
Proof.
  intros Hf He.
  rewrite (count_char_document newline_char repr elements frame_name) by reflexivity.
  rewrite Hf, He.
  change (count_char newline_char (MarkdownSpec.heading "")) with 2%nat.
  change (count_char newline_char MarkdownSpec.table_header) with 2%nat.
  change (count_char newline_char ("|  |  |  |  |  |" ++ Str.newline)) with 1%nat.
  lia.
Qed.

Lemma markdown_line_count_example :
  count_char newline_char
    (generate_markdown sample_repr
       (map with_fallback [sample_element; sample_element]) "Login")
  = (4 + length (map with_fallback [sample_element; sample_element]))%nat.
Proof.
  apply (markdown_line_count sample_repr
           (map with_fallback [sample_element; sample_element]) "Login");
    reflexivity.
Defined.

(** X18. Nothing is escaped: the vertical bars of the document are the
    twelve of the header, six per row, and every bar that occurs in the
    frame name or in a type, name, description or logic text. *)
Theorem markdown_bars_not_escaped
        (repr : pyval -> string) (elements : list element) (frame_name : string) :
  count_char "|" (generate_markdown repr elements frame_name)
  = (12 + 6 * length elements
     + count_char "|" frame_name + count_in_all_fields "|" repr elements)%nat.
Proof.
  rewrite (count_char_document "|" repr elements frame_name) by reflexivity.
  change (count_char "|" (MarkdownSpec.heading "")) with 0%nat.
  change (count_char "|" MarkdownSpec.table_header) with 12%nat.
  change (count_char "|" ("|  |  |  |  |  |" ++ Str.newline)) with 6%nat.
  lia.
Qed.

(** ** The request handler *)

Lemma parse_not_blank (url file_key node_id : string) :
  parse_figma_url url = (Some file_key, Some node_id) ->
  Str.is_empty url = false
  /\ Str.is_empty file_key = false
  /\ Str.is_empty node_id = false.
Proof.
  intros H. split; [destruct url; [discriminate H | reflexivity]|].
  assert (Hk : fst (parse_figma_url url) = Some file_key) by now rewrite H.
  assert (Hn : snd (parse_figma_url url) = Some node_id) by now rewrite H.
  unfold parse_figma_url in Hk, Hn. cbn [fst snd] in Hk, Hn.
  apply re_search_group in Hk as [Hk _]. split; [exact Hk|].
  destruct (re_search (match_any node_id_literals Str.is_node_id_char) url) as [run|] eqn:E;
    [|discriminate].
  apply re_search_group in E as [E _]. cbn [option_map] in Hn. injection Hn as <-.
  unfold Str.replace. now rewrite map_is_empty.
Qed.

Section HandlerPaths.

Variable figma_get : string -> string -> result figma_response.
Variable deepseek_post : string -> string -> result pyval.
Variable json_loads : string -> result pyval.
Variable environ : string -> option string.
Variable repr : pyval -> string.
Variable exn_message : exn -> string.

(** The [try] block of a request that names a node, from the check of
    the credentials on. *)
Lemma handler_try_names_node (ev : event) (file_key node_id : string) :
  names_node json_loads ev file_key node_id ->
  handler_try figma_get deepseek_post json_loads environ repr ev
  = (if is_blank (environ "FIGMA_ACCESS_TOKEN") then
       Ok (error_response 500 "FIGMA_ACCESS_TOKEN not configured")
     else if is_blank (environ "DEEPSEEK_API_KEY") then
       Ok (error_response 500 "DEEPSEEK_API_KEY not configured")
     else
       match fetch_figma_node figma_get file_key node_id
               (from_option "" (environ "FIGMA_ACCESS_TOKEN")) with
       | Raise e => Raise e
       | Ok figma_data =>
           if node_is_empty figma_data then
             Ok (error_response 404 "Failed to fetch Figma data. Check your token and URL")
           else
             let frame_name := from_option "UI Screen" (node_name figma_data) in
             let enhanced :=
               enhance_with_deepseek deepseek_post json_loads
                 (extract_ui_elements_default figma_data) frame_name
                 (from_option "" (environ "DEEPSEEK_API_KEY")) in
             Ok {| statusCode := 200;
                   headers := json_headers;
                   body := DocumentBody (generate_markdown repr enhanced frame_name)
                             frame_name (Z.of_nat (length enhanced));
                   isBase64Encoded := Some false |}
       end).
Proof.
  intros (raw & d & s & Hb & Hj & Hu & Hp).
  destruct (parse_not_blank _ _ _ Hp) as (Hs & Hk & Hn).
  unfold handler_try. rewrite Hb. cbn [bind]. rewrite Hj. cbn [bind Py.get].
  rewrite Hu. cbn [from_option bind]. rewrite Hs, Hp. cbn [is_blank].
  rewrite Hk, Hn. cbn [orb from_option].
  destruct (is_blank (environ "FIGMA_ACCESS_TOKEN")); [reflexivity|].
  destruct (is_blank (environ "DEEPSEEK_API_KEY")); [reflexivity|].
  destruct (fetch_figma_node _ _ _ _); reflexivity.
Qed.

Lemma handler_post (ev : event) :
  ev_httpMethod ev = Some "POST" ->
  handler figma_get deepseek_post json_loads environ repr exn_message ev
  = match handler_try figma_get deepseek_post json_loads environ repr ev with
    | Ok r => r
    | Raise e => error_response 500 ("Internal error: " ++ exn_message e)
    end.
Proof. intros H. unfold handler. now rewrite H. Qed.

(** What the [try] block can return. *)
Lemma handler_try_returns (ev : event) (r : response) :
  handler_try figma_get deepseek_post json_loads environ repr ev = Ok r ->
  headers r = json_headers
  /\ isBase64Encoded r = Some false
  /\ In (statusCode r) [200; 400; 404; 500]
  /\ (statusCode r = 200 <-> exists markdown frame_name n, body r = DocumentBody markdown frame_name n).
Proof.
  unfold handler_try, bind. intros H.
  repeat (case_on_match; try discriminate).
  all: injection H as <-; cbn.
  all: repeat split; auto 8; try discriminate.
  all: try (intros (? & ? & ? & ?); discriminate).
  all: intros _; eauto.
Qed.

End HandlerPaths.

(** X19. Every answer of the handler allows any origin; its status is
    200, 400, 404, 405 or 500; except for the preflight answer it is
    declared as JSON and as not base64-encoded; and a document is in
    the body exactly when the status is 200 and the request was not a
    preflight. *)
Theorem handler_answers
        (figma_get : string -> string -> result figma_response)
        (deepseek_post : string -> string -> result pyval)
        (json_loads : string -> result pyval)
        (environ : string -> option string)
        (repr : pyval -> string) (exn_message : exn -> string) (ev : event) :
  let answer := handler figma_get deepseek_post json_loads environ repr exn_message ev in
  let preflight := String.eqb (from_option "GET" (ev_httpMethod ev)) "OPTIONS" in
  Py.lookup "Access-Control-Allow-Origin" (headers answer) = Some "*"
  /\ In (statusCode answer) [200; 400; 404; 405; 500]
  /\ (preflight = false ->
      Py.lookup "Content-Type" (headers answer) = Some "application/json"
      /\ isBase64Encoded answer = Some false)
  /\ (preflight = true -> statusCode answer = 200 /\ body answer = EmptyBody)
  /\ ((exists markdown frame_name n, body answer = DocumentBody markdown frame_name n)
      <-> (statusCode answer = 200 /\ preflight = false)).
Proof.
  cbv zeta. unfold handler.
  assert (Herror : forall status message,
             In status [200; 400; 404; 405; 500] -> status <> 200 ->
             let answer := error_response status message in
             Py.lookup "Access-Control-Allow-Origin" (headers answer) = Some "*"
             /\ In (statusCode answer) [200; 400; 404; 405; 500]
             /\ (false = false ->
                 Py.lookup "Content-Type" (headers answer) = Some "application/json"
                 /\ isBase64Encoded answer = Some false)
             /\ (false = true -> statusCode answer = 200 /\ body answer = EmptyBody)
             /\ ((exists markdown frame_name n,
                     body answer = DocumentBody markdown frame_name n)
                 <-> (statusCode answer = 200 /\ false = false))).
  { intros status message Hin Hne. cbn.
    split; [reflexivity|]. split; [exact Hin|]. split; [now split|].
    split; [discriminate|]. split.
    - intros (? & ? & ? & ?). discriminate.
    - intros [? _]. contradiction. }
  destruct (String.eqb (from_option "GET" (ev_httpMethod ev)) "OPTIONS") eqn:Eo.
  { cbn. split; [reflexivity|]. split; [now left|]. split; [discriminate|].
    split; [now split|]. split.
    - intros (? & ? & ? & ?). discriminate.
    - intros [_ ?]. discriminate. }
  destruct (String.eqb (from_option "GET" (ev_httpMethod ev)) "POST") eqn:Ep; cbn [negb].
  - destruct (handler_try figma_get deepseek_post json_loads environ repr ev) as [r|e] eqn:Et.
    + destruct (handler_try_returns _ _ _ _ _ _ _ Et) as (Hh & Hb & Hs & Hd).
      rewrite Hh. split; [reflexivity|].
      split; [cbn in Hs; cbn; intuition|].
      split; [now split|]. split; [discriminate|]. split.
      * intros H. split; [now apply Hd | reflexivity].
      * intros [H _]. now apply Hd.
    + apply Herror; [cbn; auto 8 | discriminate].
  - apply Herror; [cbn; auto 8 | discriminate].
Qed.

(** X20. For a POST that names a node, a missing or empty design-API
    token is answered with 500 and its own message, and with that token
    present a missing or empty model key is answered with 500 and its
    message; neither answer depends on what the two outside services
    would do. *)
Theorem handler_missing_credentials
        (figma_get : string -> string -> result figma_response)
        (deepseek_post : string -> string -> result pyval)
        (json_loads : string -> result pyval)
        (environ : string -> option string)
        (repr : pyval -> string) (exn_message : exn -> string)
        (ev : event) (file_key node_id : string) :
  ev_httpMethod ev = Some "POST" ->
  names_node json_loads ev file_key node_id ->
  let answer := handler figma_get deepseek_post json_loads environ repr exn_message ev in
  (is_blank (environ "FIGMA_ACCESS_TOKEN") = true ->
   answer = error_response 500 "FIGMA_ACCESS_TOKEN not configured")
  /\ (is_blank (environ "FIGMA_ACCESS_TOKEN") = false ->
      is_blank (environ "DEEPSEEK_API_KEY") = true ->
      answer = error_response 500 "DEEPSEEK_API_KEY not configured").
Proof.
  intros Hm Hn answer. unfold answer.
  rewrite (handler_post _ _ _ _ _ _ _ Hm), (handler_try_names_node _ _ _ _ _ _ _ _ Hn).
  split.
  - now intros ->.
  - now intros -> ->.
Qed.

Lemma handler_missing_credentials_example :
  let answer := handler unreachable_figma sample_deepseek_post sample_json_loads
                        figma_only_environ sample_repr sample_exn_message sample_request in
  (is_blank (figma_only_environ "FIGMA_ACCESS_TOKEN") = true ->
   answer = error_response 500 "FIGMA_ACCESS_TOKEN not configured")
  /\ (is_blank (figma_only_environ "FIGMA_ACCESS_TOKEN") = false ->
      is_blank (figma_only_environ "DEEPSEEK_API_KEY") = true ->
      answer = error_response 500 "DEEPSEEK_API_KEY not configured").
Proof.
  apply (handler_missing_credentials unreachable_figma sample_deepseek_post
           sample_json_loads figma_only_environ sample_repr sample_exn_message
           sample_request "ABC123" "1:2").
  - reflexivity.
  - exists sample_request_text, [("figmaUrl", PStr sample_url)], sample_url.
    repeat split; vm_compute; reflexivity.
Defined.

(** X21. For a POST that names a node, with both credentials set, an
    HTTP error of the design API, whatever its status, and an answer
    that does not hold the node id are both answered with 404. *)
Theorem handler_node_not_fetched
        (figma_get : string -> string -> result figma_response)
        (deepseek_post : string -> string -> result pyval)
        (json_loads : string -> result pyval)
        (environ : string -> option string)
        (repr : pyval -> string) (exn_message : exn -> string)
        (ev : event) (file_key node_id : string) :
  ev_httpMethod ev = Some "POST" ->
  names_node json_loads ev file_key node_id ->
  is_blank (environ "FIGMA_ACCESS_TOKEN") = false ->
  is_blank (environ "DEEPSEEK_API_KEY") = false ->
  let url := "https://api.figma.com/v1/files/" ++ file_key ++ "/nodes?ids=" ++ node_id in
  let token := from_option "" (environ "FIGMA_ACCESS_TOKEN") in
  (exists code, figma_get url token = Raise (HTTPError code))
  \/ (exists data,
         figma_get url token = Ok data
         /\ Py.lookup node_id (from_option [] (resp_nodes data)) = None) ->
  handler figma_get deepseek_post json_loads environ repr exn_message ev
  = error_response 404 "Failed to fetch Figma data. Check your token and URL".
Proof.
  intros Hm Hn Hf Hd url token Hget.
  rewrite (handler_post _ _ _ _ _ _ _ Hm), (handler_try_names_node _ _ _ _ _ _ _ _ Hn).
  rewrite Hf, Hd. unfold fetch_figma_node. fold url token.
  destruct Hget as [(code & ->) | (data & -> & Hl)]; [reflexivity|].
  cbn. now rewrite Hl.
Qed.

Lemma handler_node_not_fetched_example :
  handler forbidden_figma sample_deepseek_post sample_json_loads sample_environ
          sample_repr sample_exn_message sample_request
  = error_response 404 "Failed to fetch Figma data. Check your token and URL".
Proof.
  apply (handler_node_not_fetched forbidden_figma sample_deepseek_post sample_json_loads
           sample_environ sample_repr sample_exn_message sample_request "ABC123" "1:2").
  - reflexivity.
  - exists sample_request_text, [("figmaUrl", PStr sample_url)], sample_url.
    repeat split; vm_compute; reflexivity.
  - reflexivity.
  - reflexivity.
  - left. exists 403. reflexivity.
Defined.

(** X22. For a POST that names a node, with both credentials set, any
    failure of the design-API call that is not an HTTP error is answered
    with 500 and "Internal error: " followed by the exception's
    message. *)
Theorem handler_fetch_failure
        (figma_get : string -> string -> result figma_response)
        (deepseek_post : string -> string -> result pyval)
        (json_loads : string -> result pyval)
        (environ : string -> option string)
        (repr : pyval -> string) (exn_message : exn -> string)
        (ev : event) (file_key node_id : string) (e : exn) :
  ev_httpMethod ev = Some "POST" ->
  names_node json_loads ev file_key node_id ->
  is_blank (environ "FIGMA_ACCESS_TOKEN") = false ->
  is_blank (environ "DEEPSEEK_API_KEY") = false ->
  figma_get ("https://api.figma.com/v1/files/" ++ file_key ++ "/nodes?ids=" ++ node_id)
            (from_option "" (environ "FIGMA_ACCESS_TOKEN")) = Raise e ->
  (forall code, e <> HTTPError code) ->
  handler figma_get deepseek_post json_loads environ repr exn_message ev
  = error_response 500 ("Internal error: " ++ exn_message e).
Proof.
  intros Hm Hn Hf Hd Hget Hne.
  rewrite (handler_post _ _ _ _ _ _ _ Hm), (handler_try_names_node _ _ _ _ _ _ _ _ Hn).
  rewrite Hf, Hd. unfold fetch_figma_node. rewrite Hget.
  destruct e; try reflexivity. now destruct (Hne code).
Qed.

Lemma handler_fetch_failure_example :
  handler unreachable_figma sample_deepseek_post sample_json_loads sample_environ
          sample_repr sample_exn_message sample_request
  = error_response 500 ("Internal error: " ++ sample_exn_message URLError).
Proof.
  apply (handler_fetch_failure unreachable_figma sample_deepseek_post sample_json_loads
           sample_environ sample_repr sample_exn_message sample_request "ABC123" "1:2"
           URLError).
  - reflexivity.
  - exists sample_request_text, [("figmaUrl", PStr sample_url)], sample_url.
    repeat split; vm_compute; reflexivity.
  - reflexivity.
  - reflexivity.
  - reflexivity.
  - discriminate.
Defined.

(** X23. For a POST that names a node, with both credentials set and a
    non-empty document under the node id, the answer is 200 whatever the
    model call does; it names the frame by the document's name, or
    "UI Screen" when the document has none, and counts as many elements
    as the walk of the document discovers. *)
Theorem handler_document
        (figma_get : string -> string -> result figma_response)
        (deepseek_post : string -> string -> result pyval)
        (json_loads : string -> result pyval)
        (environ : string -> option string)
        (repr : pyval -> string) (exn_message : exn -> string)
        (ev : event) (file_key node_id : string)
        (data : figma_response) (entry : figma_entry) (document : node) :
  ev_httpMethod ev = Some "POST" ->
  names_node json_loads ev file_key node_id ->
  is_blank (environ "FIGMA_ACCESS_TOKEN") = false ->
  is_blank (environ "DEEPSEEK_API_KEY") = false ->
  figma_get ("https://api.figma.com/v1/files/" ++ file_key ++ "/nodes?ids=" ++ node_id)
            (from_option "" (environ "FIGMA_ACCESS_TOKEN")) = Ok data ->
  Py.lookup node_id (from_option [] (resp_nodes data)) = Some (Some entry) ->
  entry_document entry = Some document ->
  node_is_empty document = false ->
  let answer := handler figma_get deepseek_post json_loads environ repr exn_message ev in
  let frame_name := from_option "UI Screen" (node_name document) in
  statusCode answer = 200
  /\ exists markdown,
      body answer
      = DocumentBody markdown frame_name
          (Z.of_nat (length (ExtractSpec.discovered document)))
      /\ markdown
         = generate_markdown repr
             (enhance_with_deepseek deepseek_post json_loads
                (extract_ui_elements_default document) frame_name
                (from_option "" (environ "DEEPSEEK_API_KEY")))
             frame_name.
Proof.
  intros Hm Hn Hf Hd Hget Hl He Hne answer frame_name. unfold answer.
  rewrite (handler_post _ _ _ _ _ _ _ Hm), (handler_try_names_node _ _ _ _ _ _ _ _ Hn).
  rewrite Hf, Hd. unfold fetch_figma_node. rewrite Hget. cbn [from_option].
  rewrite Hl. cbn [from_option]. rewrite He. cbn [from_option]. rewrite Hne.
  cbn [statusCode body]. split; [reflexivity|].
  eexists. split; [|reflexivity]. fold frame_name.
  rewrite enhance_length. unfold extract_ui_elements_default.
  rewrite extract_ui_elements_discovered. cbn [fst app]. now rewrite numbered_length.
Qed.

Lemma handler_document_example :
  let answer := handler sample_figma_get sample_deepseek_post sample_json_loads
                        sample_environ sample_repr sample_exn_message sample_request in
  let frame_name := from_option "UI Screen" (node_name sample_document) in
  statusCode answer = 200
  /\ exists markdown,
      body answer
      = DocumentBody markdown frame_name
          (Z.of_nat (length (ExtractSpec.discovered sample_document)))
      /\ markdown
         = generate_markdown sample_repr
             (enhance_with_deepseek sample_deepseek_post sample_json_loads
                (extract_ui_elements_default sample_document) frame_name
                (from_option "" (sample_environ "DEEPSEEK_API_KEY")))
             frame_name.
Proof.
  apply (handler_document sample_figma_get sample_deepseek_post sample_json_loads
           sample_environ sample_repr sample_exn_message sample_request "ABC123" "1:2"
           sample_answer {| entry_document := Some sample_document |} sample_document).
  - reflexivity.
  - exists sample_request_text, [("figmaUrl", PStr sample_url)], sample_url.
    repeat split; vm_compute; reflexivity.
  - reflexivity.
  - reflexivity.
  - reflexivity.
  - reflexivity.
  - reflexivity.
  - reflexivity.
Defined.

